(** * Carbon Measures RSS feed collector: a shallow embedding of
    [streamlit_app.py] and the properties of its collection, filtering and
    export code.

    The embedding follows the source function by function:
    - [fetch_google_news_rss] and [collect_all_feeds] run in a small state
      monad that threads the Streamlit output (errors, status text,
      progress, pauses) and carries Python exceptions;
    - a pandas [DataFrame] is a list of column labels and a list of rows;
    - the filters of the "Search & Filter" tab are functions on frames, and
      the same code is run once more over a store of frame objects, where
      [df.copy()], the in-place column assignment and boolean indexing are
      distinct operations;
    - the two tabs of [main] run over the session, the store and the
      values of the widgets.

    What the program takes from libraries and from the network
    ([feedparser.parse], [dateutil]'s parser, the regular-expression engine
    behind [Series.str.contains]) enters as Section variables.  What
    pandas asks of a date column before it converts it (one time zone,
    dates a timestamp can hold) is part of the model. *)

From Stdlib Require Import ZArith List String Ascii Bool Lia Sorted.
From stdpp Require Import base option gmap strings.

Local Open Scope string_scope.
Local Open Scope list_scope.

(** ** Python exceptions and results *)

(** The exceptions this program can meet.  [Exception] stands for whatever
    [feedparser.parse] or [dateutil] raise; [KeyError] is pandas' answer to
    a column label the frame does not have; [re_error] is [re.error] for a
    pattern that does not compile; [ValueError] is raised by pandas on a
    date column whose cells do not share one time zone;
    [OutOfBoundsDatetime] is raised by pandas on a date its timestamps
    cannot hold, and [OverflowError] by its JSON writer on such a date. *)
Inductive exn : Type :=
| Exception (msg : string)
| KeyError (label : string)
| re_error (pattern : string)
| ValueError (msg : string)
| OutOfBoundsDatetime (msg : string)
| OverflowError (msg : string).

(** [str(e)], as the f-string of the error message prints an exception. *)
Definition str (e : exn) : string :=
  match e with
  | Exception msg => msg
  | KeyError label => label
  | re_error pattern => pattern
  | ValueError msg => msg
  | OutOfBoundsDatetime msg => msg
  | OverflowError msg => msg
  end.

Inductive Result (A : Type) : Type :=
| Ok (a : A)
| Raise (e : exn).
Arguments Ok {A} a.
Arguments Raise {A} e.

#[global] Instance Result_ret : MRet Result := fun _ a => Ok a.
#[global] Instance Result_bind : MBind Result := fun _ _ f r =>
  match r with
  | Ok a => f a
  | Raise e => Raise e
  end.

(** ** Strings *)

(** [d.get(key, default)] on a dictionary whose entry for [key] is [o]. *)
Definition get {A : Type} (o : option A) (default : A) : A :=
  match o with
  | Some v => v
  | None => default
  end.

(** Truth value of a Python string: the empty string is false. *)
Definition truthy (s : string) : bool :=
  match s with
  | EmptyString => false
  | String _ _ => true
  end.

Definition in_range (lo hi n : nat) : bool := (lo <=? n)%nat && (n <=? hi)%nat.

(** Characters [urllib.parse.quote] never escapes: letters, digits and
    [_.-~]. *)
Definition always_safe (c : ascii) : bool :=
  let n := nat_of_ascii c in
  in_range 48 57 n || in_range 65 90 n || in_range 97 122 n
  || existsb (Ascii.eqb c) (list_ascii_of_string "_.-~").

Definition hex_digit (n : nat) : ascii :=
  if (n <? 10)%nat then ascii_of_nat (48 + n) else ascii_of_nat (55 + n).

Definition percent_escape (c : ascii) : string :=
  let n := nat_of_ascii c in
  String "%" (String (hex_digit (n / 16)) (String (hex_digit (n mod 16)) EmptyString)).

(** [urllib.parse.quote_plus] over the bytes of the keyword: safe
    characters stay, a space becomes [+], any other byte is escaped. *)
Fixpoint quote_plus (s : string) : string :=
  match s with
  | EmptyString => EmptyString
  | String c rest =>
      (if always_safe c then String c EmptyString
       else if Ascii.eqb c " " then "+"
       else percent_escape c) +:+ quote_plus rest
  end.

Definition rss_url (keyword : string) : string :=
  "https://news.google.com/rss/search?q=" +:+ quote_plus keyword
    +:+ "&hl=en-US&gl=US&ceid=US:en".

(** ** Dates and times *)

(** The [tzinfo] objects [dateutil]'s parser attaches to a datetime:
    [tzutc()] for UTC, GMT, Z and an offset of zero; [tzlocal()] for a zone
    name of the machine's own zone; [tzoffset(name, seconds)] for any other
    offset. *)
Inductive tz : Type :=
| tzutc
| tzlocal
| tzoffset (seconds : Z).

(** A Python [datetime] as [dateutil] returns it: the wall-clock reading in
    microseconds since 1970-01-01 00:00:00 of its own zone, and its
    [tzinfo] object ([None] for a naive datetime).  [wall] is the reading
    as pandas takes it from the object, a reading the zone has. *)
Record datetime : Type := {
  wall : Z;
  tzinfo : option tz
}.

(** A calendar date ([datetime.date]) as its day number, day 0 being
    1970-01-01. *)
Definition date : Type := Z.

Definition microseconds_per_second : Z := 1000000.
Definition microseconds_per_day : Z := 86400 * microseconds_per_second.

(** [pd.Timestamp(d)] of a date: midnight at the start of that day, naive. *)
Definition Timestamp (d : date) : Z := (d * microseconds_per_day)%Z.
Definition Timedelta_days (n : Z) : Z := (n * microseconds_per_day)%Z.
Definition Timedelta_seconds (n : Z) : Z := (n * microseconds_per_second)%Z.

(** The calendar day a naive timestamp falls on. *)
Definition date_of (t : Z) : date := (t / microseconds_per_day)%Z.

(** pandas 2 holds a timestamp as the nanoseconds since 1970-01-01 00:00
    UTC in a signed 64-bit integer whose lowest value stands for [NaT]:
    from 1677-09-21 00:12:43.145224 to 2262-04-11 23:47:16.854775, here
    in microseconds. *)
Definition Timestamp_max : Z := 9223372036854775.

Definition representable (t : Z) : bool :=
  (- Timestamp_max <=? t)%Z && (t <=? Timestamp_max)%Z.

(** The datetime fits a pandas timestamp with a day to spare on either
    side, so that its instant fits too, whatever its offset from UTC,
    which is less than a day.  (Closer to a bound, whether pandas takes a
    datetime depends on its offset; here it counts as out of bounds.) *)
Definition in_bounds (d : datetime) : bool :=
  representable (wall d - Timedelta_days 1) && representable (wall d + Timedelta_days 1).

(** ** Feed entries and article records *)

(** One entry of the parsed feed, a dictionary read through [entry.get]:
    each key may be missing; [source] is itself a dictionary whose [title]
    may be missing. *)
Record Entry : Type := {
  entry_title : option string;
  entry_link : option string;
  entry_published : option string;
  entry_source : option (option string);
  entry_summary : option string
}.

(** What [feedparser.parse] returns: the entries it read, and the flag
    [bozo], which it sets, instead of raising, when the document could not
    be fetched or is not well-formed; the entries then are those it could
    still read, none for an address it could not reach.  The source reads
    [entries] only. *)
Record Feed : Type := {
  entries : list Entry;
  bozo : bool
}.

(** The dictionary [fetch_google_news_rss] builds per entry. *)
Record Article : Type := {
  Keyword : string;
  Title : string;
  URL : string;
  Published : string;
  Published_Date : option datetime;
  Source : string;
  Description : string
}.

(** ** Streamlit output and the monad of the collection code *)

Inductive Event : Type :=
| st_error (msg : string)
| status_text (msg : string)
| progress (done total : nat)
| sleep (seconds : nat).

(** A computation over a state [S] (the page output, local variables,
    the store of objects) either returns a value or raises; either way it
    leaves a state behind. *)
Definition ST (S A : Type) : Type := S -> Result A * S.

#[global] Instance ST_ret (S : Type) : MRet (ST S) := fun _ a s => (Ok a, s).
#[global] Instance ST_bind (S : Type) : MBind (ST S) := fun _ _ f m s =>
  match m s with
  | (Ok a, s') => f a s'
  | (Raise e, s') => (Raise e, s')
  end.

(** A library call: its result, the state untouched. *)
Definition call {S A : Type} (r : Result A) : ST S A := fun s => (r, s).

(** [try: body except Exception as e: handler(e)]; the handler starts
    from the state the body left when it raised. *)
Definition try_except {S A : Type} (body : ST S A) (handler : exn -> ST S A) : ST S A :=
  fun s =>
    match body s with
    | (Ok a, s') => (Ok a, s')
    | (Raise e, s') => handler e s'
    end.

(** The collection code runs over the page output. *)
Definition M (A : Type) : Type := ST (list Event) A.

Definition emit (ev : Event) : M unit := fun ui => (Ok tt, ui ++ [ev]).

(** ** Data frames *)

(** A row of the table: the article's seven cells and the cell of the
    helper column [Published_Date_Compare] that the date filter adds
    ([None] is [NaT]; the cell means nothing while the frame does not list
    the column). *)
Record Row : Type := {
  article :> Article;
  Published_Date_Compare : option Z
}.

(** A pandas [DataFrame]: the column labels in order and the rows in
    order.  Row labels (the index) are left out: every export passes
    [index=False] or [orient='records'], and every mask is computed from
    the frame it selects from. *)
Record DataFrame : Type := {
  columns : list string;
  rows : list Row
}.

Definition article_columns : list string :=
  [ "Keyword"; "Title"; "URL"; "Published"; "Published_Date"; "Source"; "Description" ].

Definition compare_column : string := "Published_Date_Compare".

Definition row_of_article (a : Article) : Row :=
  {| article := a; Published_Date_Compare := None |}.

(** [pd.DataFrame(all_articles)] of a list of dictionaries that all have
    the seven keys; of the empty list it is the frame without columns. *)
Definition DataFrame_of (all_articles : list Article) : DataFrame :=
  match all_articles with
  | [] => {| columns := []; rows := [] |}
  | _ :: _ => {| columns := article_columns; rows := map row_of_article all_articles |}
  end.

(** [df.empty]: some axis has length 0. *)
Definition df_empty (df : DataFrame) : bool :=
  match columns df, rows df with
  | _ :: _, _ :: _ => false
  | _, _ => true
  end.

(** [label in df.columns] *)
Definition has_column (label : string) (df : DataFrame) : bool :=
  existsb (String.eqb label) (columns df).

(** [df[mask]] for a mask computed row by row. *)
Definition boolean_index (mask : Row -> bool) (df : DataFrame) : DataFrame :=
  {| columns := columns df; rows := List.filter mask (rows df) |}.

(** The rows [duplicated(subset=['URL'], keep='first')] leaves unmarked:
    a row is dropped when an earlier row has its URL; [seen] holds the
    URLs met so far. *)
Fixpoint drop_duplicate_rows (seen : list string) (rs : list Row) : list Row :=
  match rs with
  | [] => []
  | r :: rest =>
      if existsb (String.eqb (URL r)) seen then drop_duplicate_rows seen rest
      else r :: drop_duplicate_rows (URL r :: seen) rest
  end.

(** [df.drop_duplicates(subset=['URL'], keep='first')] *)
Definition drop_duplicates (df : DataFrame) : Result DataFrame :=
  if has_column "URL" df then
    Ok {| columns := columns df; rows := drop_duplicate_rows [] (rows df) |}
  else Raise (KeyError "URL").

(** ** The feed fetcher and the collection loop *)

Definition KEYWORDS : list string :=
  [ "carbon measures";
    "scope 3 emissions";
    "exxon scope 3";
    "greenhouse gas protocol scope 3";
    "Amy Bracchio";
    "Karthik Ramanna" ].

Section Fetcher.

(** [feedparser.parse(url)]: the parsed feed, or an exception where the
    library lets one through.
    The host caches [fetch_google_news_rss] per keyword for an hour, so
    within a run the answer is a function of the address. *)
Variable feedparser_parse : string -> Result Feed.

(** [date_parser.parse(text)]: the parsed datetime, or an exception. *)
Variable date_parser_parse : string -> Result datetime.

(** Lines 44-51: the inner [try] around the date parser; any exception
    leaves [published_date] at [None]. *)
Definition parse_published (published_str : string) : option datetime :=
  if truthy published_str then
    match date_parser_parse published_str with
    | Ok d => Some d
    | Raise _ => None
    end
  else None.

(** Lines 44-61: the record built from one entry. *)
Definition make_article (keyword : string) (entry : Entry) : Article :=
  let published_str := get (entry_published entry) "" in
  let published_date := parse_published published_str in
  {| Keyword := keyword;
     Title := get (entry_title entry) "";
     URL := get (entry_link entry) "";
     Published := published_str;
     Published_Date := published_date;
     Source := get (get (entry_source entry) None) "Unknown";
     Description := get (entry_summary entry) "" |}.

(** The state of one call of the fetcher: its local list [articles] and
    the page output. *)
Definition Locals : Type := (list Article * list Event)%type.

(** [articles.append(article)] *)
Definition append (article : Article) : ST Locals unit :=
  fun s => (Ok tt, (s.1 ++ [article], s.2)).

(** [st.error(msg)] from inside the fetcher. *)
Definition error (msg : string) : ST Locals unit :=
  fun s => (Ok tt, (s.1, s.2 ++ [st_error msg])).

(** Lines 42-62: the loop over [feed.entries]. *)
Fixpoint for_entries (keyword : string) (es : list Entry) : ST Locals unit :=
  match es with
  | [] => mret tt
  | entry :: rest =>
      _ ← append (make_article keyword entry);
      for_entries keyword rest
  end.

(** Lines 34-66: [articles] starts empty, the [try] block parses the feed
    and fills it, the handler reports the exception, and whatever
    [articles] holds by then is returned. *)
Definition fetch_google_news_rss (keyword : string) : M (list Article) :=
  fun ui =>
    let url := rss_url keyword in
    let run :=
      try_except
        (feed ← call (feedparser_parse url);
         for_entries keyword (entries feed))
        (fun e => error ("Error fetching " +:+ keyword +:+ ": " +:+ str e))
        ([], ui) in
    match run with
    | (Ok _, (articles, ui')) => (Ok articles, ui')
    | (Raise e, (_, ui')) => (Raise e, ui')
    end.

(** Lines 74-79: the loop over the keywords; [i] is the loop index. *)
Fixpoint for_keywords (total_keywords i : nat) (keywords : list string)
  (all_articles : list Article) : M (list Article) :=
  match keywords with
  | [] => mret all_articles
  | keyword :: rest =>
      _ ← emit (status_text ("Fetching articles for: " +:+ keyword));
      articles ← fetch_google_news_rss keyword;
      let all_articles := all_articles ++ articles in
      _ ← emit (progress (i + 1) total_keywords);
      _ ← emit (sleep 1);
      for_keywords total_keywords (S i) rest all_articles
  end.

(** Lines 69-86, with the keyword list as an argument. *)
Definition collect (keywords : list string) : M DataFrame :=
  all_articles ← for_keywords (length keywords) 0 keywords [];
  let df := DataFrame_of all_articles in
  if negb (df_empty df) then call (drop_duplicates df) else mret df.

(** The function of the source, over the module's [KEYWORDS]. *)
Definition collect_all_feeds : M DataFrame := collect KEYWORDS.

(** The articles a call of [fetch_google_news_rss] returns, read off a run
    that starts with no output. *)
Definition fetched (keyword : string) : list Article :=
  match (fetch_google_news_rss keyword []).1 with
  | Ok articles => articles
  | Raise _ => []
  end.

(** The concatenated fetch results, in keyword order. *)
Definition all_fetched (keywords : list string) : list Article :=
  concat (map fetched keywords).

End Fetcher.

(** ** The filters of the "Search & Filter" tab *)

(** [isna()] and [notna()] of the [Published_Date] cell. *)
Definition isna (r : Row) : bool :=
  match Published_Date r with
  | None => true
  | Some _ => false
  end.

Definition notna (r : Row) : bool := negb (isna r).

(** Comparison of a timestamp cell with a timestamp; [NaT] compares false. *)
Definition cell_ge (cell : option Z) (t : Z) : bool :=
  match cell with
  | Some x => (t <=? x)%Z
  | None => false
  end.

Definition cell_le (cell : option Z) (t : Z) : bool :=
  match cell with
  | Some x => (x <=? t)%Z
  | None => false
  end.

(** Whether pandas takes two [tzinfo] objects for one zone: [tzutc] is
    equal to [tzutc] alone, also on a machine that runs in UTC, where
    [tzlocal] has the same offset; two [tzoffset] objects are equal when
    their offsets are. *)
Definition tz_compare (a b : tz) : bool :=
  match a, b with
  | tzutc, tzutc => true
  | tzlocal, tzlocal => true
  | tzoffset x, tzoffset y => (x =? y)%Z
  | _, _ => false
  end.

(** The same on two cells; a naive datetime goes with naive ones only. *)
Definition zone_eqb (z1 z2 : option tz) : bool :=
  match z1, z2 with
  | None, None => true
  | Some a, Some b => tz_compare a b
  | _, _ => false
  end.

(** The parsed dates of a column, [None] cells skipped. *)
Fixpoint present_dates (rs : list Row) : list datetime :=
  match rs with
  | [] => []
  | r :: rest =>
      match Published_Date r with
      | Some d => d :: present_dates rest
      | None => present_dates rest
      end
  end.

(** All parsed dates carry one zone (or all are naive). *)
Definition one_zone (rs : list Row) : bool :=
  match present_dates rs with
  | [] => true
  | d :: rest => forallb (fun d' => zone_eqb (tzinfo d) (tzinfo d')) rest
  end.

(** The parsed dates make one datetime column: they carry one zone and
    each fits a timestamp.  Such a column [pd.to_datetime] returns and the
    [.dt] accessor takes. *)
Definition datetime_column (rs : list Row) : bool :=
  one_zone rs && forallb in_bounds (present_dates rs).

(** What [pd.to_datetime(...).dt] raises on any other column.  The class
    of the exception for mixed zones depends on the pandas version;
    [ValueError] stands for it. *)
Definition to_datetime_error (rs : list Row) : exn :=
  if one_zone rs then OutOfBoundsDatetime "Out of bounds nanosecond timestamp"
  else ValueError "mixed time zones".

(** [tz_localize(None)] of one cell: the zone is dropped, the wall-clock
    reading kept; [None] becomes [NaT]. *)
Definition tz_localize_None (cell : option datetime) : option Z :=
  match cell with
  | Some d => Some (wall d)
  | None => None
  end.

Definition set_compare (r : Row) : Row :=
  {| article := article r;
     Published_Date_Compare := tz_localize_None (Published_Date r) |}.

(** Line 306: [df['Published_Date_Compare'] =
    pd.to_datetime(df['Published_Date']).dt.tz_localize(None)], an
    assignment into the frame.  pandas raises when the parsed dates do not
    make one datetime column; otherwise the column is written cell by
    cell, and its label is appended when the frame does not have it yet.
    (pandas 3 holds microseconds and takes every Python datetime; on
    dates in the bounds of pandas 2 the two do the same.) *)
Definition assign_compare_column (df : DataFrame) : Result DataFrame :=
  if datetime_column (rows df) then
    Ok {| columns := if has_column compare_column df then columns df
                     else columns df ++ [compare_column];
          rows := map set_compare (rows df) |}
  else Raise (to_datetime_error (rows df)).

(** Line 307-310: the mask of the rows inside the range, joined with the
    mask of the rows without a date. *)
Definition date_mask (start_datetime end_datetime : Z) (r : Row) : bool :=
  isna r
  || (cell_ge (Published_Date_Compare r) start_datetime
      && cell_le (Published_Date_Compare r) end_datetime).

(** Lines 297-311. *)
Definition date_filter (start_date end_date : date) (filtered_df : DataFrame)
  : Result DataFrame :=
  if has_column "Published_Date" filtered_df then
    let start_datetime := Timestamp start_date in
    let end_datetime :=
      (Timestamp end_date + Timedelta_days 1 - Timedelta_seconds 1)%Z in
    if existsb notna (rows filtered_df) then
      filtered_df ← assign_compare_column filtered_df;
      mret (boolean_index (date_mask start_datetime end_datetime) filtered_df)
    else mret (boolean_index isna filtered_df)
  else mret filtered_df.

(** [Series.isin(values)] on one cell. *)
Definition isin (cell : string) (values : list string) : bool :=
  existsb (String.eqb cell) values.

(** Lines 318-319; an empty selection is false and skips the filter. *)
Definition keyword_filter (selected_keywords : list string) (filtered_df : DataFrame)
  : Result DataFrame :=
  match selected_keywords with
  | [] => mret filtered_df
  | _ :: _ =>
      if has_column "Keyword" filtered_df then
        mret (boolean_index (fun r => isin (Keyword r) selected_keywords) filtered_df)
      else Raise (KeyError "Keyword")
  end.

(** Lines 321-322. *)
Definition source_filter (selected_sources : list string) (filtered_df : DataFrame)
  : Result DataFrame :=
  match selected_sources with
  | [] => mret filtered_df
  | _ :: _ =>
      if has_column "Source" filtered_df then
        mret (boolean_index (fun r => isin (Source r) selected_sources) filtered_df)
      else Raise (KeyError "Source")
  end.

(** The widgets' values the filters read. *)
Record Criteria : Type := {
  search_term : string;
  start_date : date;
  end_date : date;
  selected_keywords : list string;
  selected_sources : list string
}.

Section Search.

(** [Series.str.contains(pat, case=False, na=False)] with pandas' default
    [regex=True]: the pattern is compiled once with [re.IGNORECASE], which
    may raise [re.error], and then searched for in each cell. *)
Variable str_contains : string -> Result (string -> bool).

(** Lines 313-316.  The [Title] column is read and the pattern compiled
    before the [Description] column is read. *)
Definition search_filter (search_term : string) (filtered_df : DataFrame)
  : Result DataFrame :=
  if truthy search_term then
    if has_column "Title" filtered_df then
      found ← str_contains search_term;
      if has_column "Description" filtered_df then
        mret (boolean_index (fun r => found (Title r) || found (Description r))
                filtered_df)
      else Raise (KeyError "Description")
    else Raise (KeyError "Title")
  else mret filtered_df.

(** Lines 294-322 on the value of the frame: the four filters in the
    order of the source. *)
Definition apply_filters (c : Criteria) (df : DataFrame) : Result DataFrame :=
  filtered_df ← date_filter (start_date c) (end_date c) df;
  filtered_df ← search_filter (search_term c) filtered_df;
  filtered_df ← keyword_filter (selected_keywords c) filtered_df;
  source_filter (selected_sources c) filtered_df.

End Search.

(** ** The same filters over frame objects

    In the source [df] is the object kept in [st.session_state];
    [df.copy()] makes a second object, the column assignment of line 306
    changes an object in place, and each [filtered_df[mask]] makes a new
    one.  Objects live in a store keyed by reference. *)

Definition ref : Type := nat.

Definition Prog (A : Type) : Type := ST (gmap ref DataFrame) A.

(** A new object holding [df]. *)
Definition alloc (df : DataFrame) : Prog ref :=
  fun h => let l := fresh (dom h) in (Ok l, <[l:=df]> h).

(** The frame a reference points to. *)
Definition read (l : ref) : Prog DataFrame :=
  fun h =>
    match h !! l with
    | Some df => (Ok df, h)
    | None => (Raise (Exception "dangling reference"), h)
    end.

(** In-place change of the object behind [l]. *)
Definition write (l : ref) (df : DataFrame) : Prog unit :=
  fun h => (Ok tt, <[l:=df]> h).

(** Lines 297-311 on objects. *)
Definition date_filter_obj (start_date end_date : date) (filtered_df : ref) : Prog ref :=
  df ← read filtered_df;
  if has_column "Published_Date" df then
    let start_datetime := Timestamp start_date in
    let end_datetime :=
      (Timestamp end_date + Timedelta_days 1 - Timedelta_seconds 1)%Z in
    if existsb notna (rows df) then
      df' ← call (assign_compare_column df);
      _ ← write filtered_df df';
      alloc (boolean_index (date_mask start_datetime end_datetime) df')
    else alloc (boolean_index isna df)
  else mret filtered_df.

(** A filter that changes no object and rebinds [filtered_df] to a new one
    when it selects rows. *)
Definition select_obj (f : DataFrame -> Result DataFrame) (skipped : bool)
  (filtered_df : ref) : Prog ref :=
  if skipped then mret filtered_df
  else
    df ← read filtered_df;
    df' ← call (f df);
    alloc df'.

Section SearchTab.

Variable str_contains : string -> Result (string -> bool).

(** Lines 196-322 from the session's table to [filtered_df]: [None] when
    nothing was collected yet (the tab then only shows a hint). *)
Definition search_and_filter_tab (session_state : gmap string ref) (c : Criteria)
  : Prog (option ref) :=
  match session_state !! "articles_df" with
  | None => mret None
  | Some df =>
      table ← read df;
      filtered_df ← alloc table;
      filtered_df ← date_filter_obj (start_date c) (end_date c) filtered_df;
      filtered_df ← select_obj (search_filter str_contains (search_term c))
                      (negb (truthy (search_term c))) filtered_df;
      filtered_df ← select_obj (keyword_filter (selected_keywords c))
                      (match selected_keywords c with [] => true | _ => false end)
                      filtered_df;
      filtered_df ← select_obj (source_filter (selected_sources c))
                      (match selected_sources c with [] => true | _ => false end)
                      filtered_df;
      mret (Some filtered_df)
  end.

End SearchTab.

(** ** Exports *)

(** The value of one cell. *)
Inductive Cell : Type :=
| text (s : string)
| moment (d : datetime)
| stamp (t : Z)
| missing.

(** [row[label]] for the labels a frame of this program can have. *)
Definition cell (r : Row) (label : string) : Cell :=
  if String.eqb label "Keyword" then text (Keyword r)
  else if String.eqb label "Title" then text (Title r)
  else if String.eqb label "URL" then text (URL r)
  else if String.eqb label "Published" then text (Published r)
  else if String.eqb label "Published_Date" then
    match Published_Date r with Some d => moment d | None => missing end
  else if String.eqb label "Source" then text (Source r)
  else if String.eqb label "Description" then text (Description r)
  else if String.eqb label compare_column then
    match Published_Date_Compare r with Some t => stamp t | None => missing end
  else missing.

(** [df.to_csv(index=False)] before it is laid out as text: the header
    line lists the column labels, and each row gives one record with a
    field per column. *)
Record Csv : Type := {
  header : list string;
  records : list (list Cell)
}.

Definition to_csv (df : DataFrame) : Csv :=
  {| header := columns df;
     records := map (fun r => map (cell r) (columns df)) (rows df) |}.

(** The array [df.to_json(orient='records')] writes: one object per row,
    keyed by the column labels. *)
Definition json_records (df : DataFrame) : list (list (string * Cell)) :=
  map (fun r => map (fun label => (label, cell r label)) (columns df)) (rows df).

(** The parsed dates in the cells of a frame. *)
Definition date_cells (df : DataFrame) : list datetime :=
  if has_column "Published_Date" df then present_dates (rows df) else [].

(** [df.to_json(orient='records', indent=2)] (line 184).  On its way to
    the epoch it prints, the writer turns every datetime into nanoseconds
    since 1970, and raises [OverflowError] on one that does not fit. *)
Definition to_json (df : DataFrame) : Result (list (list (string * Cell))) :=
  if forallb in_bounds (date_cells df) then Ok (json_records df)
  else Raise (OverflowError "datetime out of range").

(** ** Regular expressions

    [str.contains] hands the search text to Python's [re].  The model
    covers the patterns built from ordinary characters and the dot, over
    ASCII text; it says nothing on any other pattern. *)

(** The characters [re] gives a meaning of their own. *)
Definition special_characters : string := ".^$*+?{}[]\|()".

Definition is_special (c : ascii) : bool :=
  existsb (Ascii.eqb c) (list_ascii_of_string special_characters).

Inductive atom : Type :=
| any_char
| literal (c : ascii).

Fixpoint parse_simple (pat : string) : option (list atom) :=
  match pat with
  | EmptyString => Some []
  | String c rest =>
      if Ascii.eqb c "." then cons any_char <$> parse_simple rest
      else if is_special c then None
      else cons (literal c) <$> parse_simple rest
  end.

(** ASCII lower case, the folding [re.IGNORECASE] applies to ASCII text. *)
Definition lower (c : ascii) : ascii :=
  let n := nat_of_ascii c in
  if in_range 65 90 n then ascii_of_nat (n + 32) else c.

Definition newline : ascii := ascii_of_nat 10.

(** The dot matches any character except a newline. *)
Definition atom_matches (a : atom) (c : ascii) : bool :=
  match a with
  | any_char => negb (Ascii.eqb c newline)
  | literal x => Ascii.eqb (lower x) (lower c)
  end.

Fixpoint match_at (atoms : list atom) (s : string) : bool :=
  match atoms, s with
  | [], _ => true
  | a :: rest, String c s' => atom_matches a c && match_at rest s'
  | _ :: _, EmptyString => false
  end.

(** [regex.search(s) is not None] *)
Fixpoint re_search (atoms : list atom) (s : string) : bool :=
  match_at atoms s
  || match s with
     | EmptyString => false
     | String _ s' => re_search atoms s'
     end.

Definition ascii_only (s : string) : bool :=
  forallb (fun c => (nat_of_ascii c <? 128)%nat) (list_ascii_of_string s).

(** What the model asks of the engine behind [str.contains]: a covered
    pattern compiles, and on ASCII text the compiled pattern finds what
    [re_search] finds. *)
Definition python_re (str_contains : string -> Result (string -> bool)) : Prop :=
  forall pat atoms,
    ascii_only pat = true ->
    parse_simple pat = Some atoms ->
    exists found,
      str_contains pat = Ok found /\
      forall s, ascii_only s = true -> found s = re_search atoms s.

(** An engine for the covered patterns alone, rejecting every other one. *)
Definition simple_engine (pat : string) : Result (string -> bool) :=
  match parse_simple pat with
  | Some atoms => Ok (re_search atoms)
  | None => Raise (re_error pat)
  end.

(** ** The search of the specification

    Case-insensitive substring search, as the specification words the
    search filter; it is compared with [search_filter] below. *)

Fixpoint prefix_ci (needle hay : string) : bool :=
  match needle, hay with
  | EmptyString, _ => true
  | String a needle', String b hay' =>
      Ascii.eqb (lower a) (lower b) && prefix_ci needle' hay'
  | String _ _, EmptyString => false
  end.

Fixpoint substring_ci (needle hay : string) : bool :=
  prefix_ci needle hay
  || match hay with
     | EmptyString => false
     | String _ hay' => substring_ci needle hay'
     end.

(** ** Columns, counts and slices *)

(** [df['Keyword']] and [df['Source']]: the cells of the column in row
    order, or [KeyError] when the frame does not list the column. *)
Definition column_Keyword (df : DataFrame) : Result (list string) :=
  if has_column "Keyword" df then Ok (map (fun r : Row => Keyword r) (rows df))
  else Raise (KeyError "Keyword").

Definition column_Source (df : DataFrame) : Result (list string) :=
  if has_column "Source" df then Ok (map (fun r : Row => Source r) (rows df))
  else Raise (KeyError "Source").

(** [Series.unique()]: the distinct values in order of first appearance;
    [seen] holds the values met so far. *)
Fixpoint unique_from (seen : list string) (xs : list string) : list string :=
  match xs with
  | [] => []
  | x :: rest =>
      if existsb (String.eqb x) seen then unique_from seen rest
      else x :: unique_from (x :: seen) rest
  end.

Definition unique (xs : list string) : list string := unique_from [] xs.

(** [Series.nunique()] *)
Definition nunique (xs : list string) : nat := length (unique xs).

(** [Series.value_counts()], keyed by value: how often each value occurs.
    The order of the result is left out; the bar chart that shows it
    orders the bars itself. *)
Fixpoint value_counts (xs : list string) : gmap string nat :=
  match xs with
  | [] => ∅
  | x :: rest =>
      let counts := value_counts rest in
      <[x := S (default 0 (counts !! x))]> counts
  end.

(** [sorted(values)] of strings: insertion into a list kept in ascending
    order of [String.leb], the order of the code points. *)
Fixpoint insert_sorted (x : string) (xs : list string) : list string :=
  match xs with
  | [] => [x]
  | y :: rest => if String.leb x y then x :: y :: rest else y :: insert_sorted x rest
  end.

Definition sorted (xs : list string) : list string := foldr insert_sorted [] xs.

(** [df[labels]]: the frame restricted to the listed columns, or
    [KeyError] on the first label the frame does not list.  The rows keep
    their cells; the cells of columns a frame does not list are not part
    of it (see [to_csv]). *)
Fixpoint first_missing (labels : list string) (df : DataFrame) : option string :=
  match labels with
  | [] => None
  | label :: rest =>
      if has_column label df then first_missing rest df else Some label
  end.

Definition select_columns (labels : list string) (df : DataFrame) : Result DataFrame :=
  match first_missing labels df with
  | None => Ok {| columns := labels; rows := rows df |}
  | Some label => Raise (KeyError label)
  end.

(** [df.head(n)] *)
Definition df_head (n : nat) (df : DataFrame) : DataFrame :=
  {| columns := columns df; rows := firstn n (rows df) |}.

Definition display_columns : list string :=
  [ "Title"; "Source"; "Keyword"; "Published"; "URL" ].

(** ** The session and the "Collect Feeds" tab *)

(** [st.session_state], split by the type of what a key holds: the frame
    objects (key [articles_df]) and the times (key [collection_time]). *)
Record Session : Type := {
  frames : gmap string ref;
  times : gmap string Z
}.

(** The application between two runs of the page: the session, the frame
    objects and the output of the collection runs so far. *)
Record App : Type := {
  session : Session;
  objects : gmap ref DataFrame;
  page : list Event
}.

(** What the tab shows after a collection that found articles (lines
    136-191): the success line and the three metrics, the chart of
    articles per keyword, the first twenty rows in five columns, and the
    two downloads. *)
Record Summary : Type := {
  found : nat;
  total_articles : nat;
  keywords_searched : nat;
  unique_sources : nat;
  keyword_counts : gmap string nat;
  recent_articles : Csv;
  download_csv : Csv;
  download_json : list (list (string * Cell))
}.

Inductive CollectView : Type :=
| not_clicked
| no_articles_found
| collection_complete (summary : Summary).

(** Lines 139-191 on the collected frame; the JSON download is written
    last. *)
Definition summarize (df : DataFrame) : Result Summary :=
  sources ← column_Source df;
  keywords ← column_Keyword df;
  display_df ← select_columns display_columns df;
  let csv := to_csv df in
  json_str ← to_json df;
  mret {| found := length (rows df);
          total_articles := length (rows df);
          keywords_searched := length KEYWORDS;
          unique_sources := nunique sources;
          keyword_counts := value_counts keywords;
          recent_articles := to_csv (df_head 20 display_df);
          download_csv := csv;
          download_json := json_str |}.

Section CollectTab.

Variable feedparser_parse : string -> Result Feed.
Variable date_parser_parse : string -> Result datetime.

(** Lines 119-191.  [now] is the reading of the clock at line 134.  The
    session is written only when the collected frame is not empty; the
    frame then is a new object of the store, and it is stored before the
    summary is built. *)
Definition collect_tab (collect_button : bool) (now : Z) : ST App CollectView :=
  fun app =>
    if collect_button then
      match collect_all_feeds feedparser_parse date_parser_parse (page app) with
      | (Raise e, ui) =>
          (Raise e, {| session := session app; objects := objects app; page := ui |})
      | (Ok df, ui) =>
          if df_empty df then
            (Ok no_articles_found,
             {| session := session app; objects := objects app; page := ui |})
          else
            let l := fresh (dom (objects app)) in
            let stored :=
              {| session :=
                   {| frames := <["articles_df" := l]> (frames (session app));
                      times := <["collection_time" := now]> (times (session app)) |};
                 objects := <[l := df]> (objects app);
                 page := ui |} in
            match summarize df with
            | Ok summary => (Ok (collection_complete summary), stored)
            | Raise e => (Raise e, stored)
            end
      end
    else (Ok not_clicked, app).

End CollectTab.

(** ** The widgets of the "Search & Filter" tab *)

(** The readings of [datetime.now()] in one run of the tab, in the order
    of the lines that take them: lines 220 and 221, then the two readings
    of the quick filter that was clicked (lines 263-270). *)
Record Clock : Type := {
  now_min : Z;
  now_max : Z;
  now_start : Z;
  now_end : Z
}.

(** What the user did with the widgets; [None] is a widget left at its
    default value. *)
Record Inputs : Type := {
  search_input : string;
  from_date : option date;
  to_date : option date;
  today_button : bool;
  last_7_days_button : bool;
  last_30_days_button : bool;
  all_time_button : bool;
  keywords_picked : option (list string);
  sources_picked : option (list string)
}.

(** Smallest and largest of a list of timestamps that starts with [t]. *)
Definition minimum (t : Z) (ts : list Z) : Z := foldr Z.min t ts.
Definition maximum (t : Z) (ts : list Z) : Z := foldr Z.max t ts.

(** Lines 216-218 and 273-275: the dates of the earliest and the latest
    parsed date, zones dropped; pandas raises when the parsed dates do not
    make one datetime column. *)
Definition data_bounds (df : DataFrame) (d : datetime) (ds : list datetime)
  : Result (date * date) :=
  if datetime_column (rows df) then
    Ok (date_of (minimum (wall d) (map wall ds)),
        date_of (maximum (wall d) (map wall ds)))
  else Raise (to_datetime_error (rows df)).

(** Lines 213-221: the bounds of the two date pickers. *)
Definition date_bounds (clock : Clock) (df : DataFrame) : Result (date * date) :=
  if has_column "Published_Date" df then
    match present_dates (rows df) with
    | d :: ds => data_bounds df d ds
    | [] => Ok ((date_of (now_min clock) - 30)%Z, date_of (now_max clock))
    end
  else Raise (KeyError "Published_Date").

(** Lines 243-259: the four buttons are read in turn, a later one that is
    down overrides an earlier one. *)
Definition quick_filter (inputs : Inputs) : option string :=
  let q := None in
  let q := if today_button inputs then Some "today" else q in
  let q := if last_7_days_button inputs then Some "7days" else q in
  let q := if last_30_days_button inputs then Some "30days" else q in
  let q := if all_time_button inputs then Some "all" else q in
  q.

Definition is_quick (q : option string) (name : string) : bool :=
  match q with
  | Some s => String.eqb s name
  | None => false
  end.

(** Lines 262-275: the range after the quick filter. *)
Definition apply_quick_filter (clock : Clock) (q : option string) (df : DataFrame)
  (start_date end_date : date) : Result (date * date) :=
  if is_quick q "today" then
    Ok (date_of (now_start clock), date_of (now_end clock))
  else if is_quick q "7days" then
    Ok (date_of (now_start clock - Timedelta_days 7)%Z, date_of (now_end clock))
  else if is_quick q "30days" then
    Ok (date_of (now_start clock - Timedelta_days 30)%Z, date_of (now_end clock))
  else if is_quick q "all" then
    match present_dates (rows df) with
    | d :: ds => data_bounds df d ds
    | [] => Ok (start_date, end_date)
    end
  else Ok (start_date, end_date).

(** Lines 205-291: the criteria the filters run with, read off the table
    and the widgets. *)
Definition criteria_of (clock : Clock) (inputs : Inputs) (df : DataFrame)
  : Result Criteria :=
  bounds ← date_bounds clock df;
  let start_date := get (from_date inputs) bounds.1 in
  let end_date := get (to_date inputs) bounds.2 in
  range ← apply_quick_filter clock (quick_filter inputs) df start_date end_date;
  keywords ← column_Keyword df;
  let selected_keywords := get (keywords_picked inputs) (unique keywords) in
  sources ← column_Source df;
  let selected_sources := get (sources_picked inputs) [] in
  mret {| search_term := search_input inputs;
          start_date := range.1;
          end_date := range.2;
          selected_keywords := selected_keywords;
          selected_sources := selected_sources |}.

(** The options the source picker offers (line 289). *)
Definition source_options (df : DataFrame) : Result (list string) :=
  sources ← column_Source df;
  mret (sorted (unique sources)).

(** What the tab shows: the hint to collect first, or the number of
    results with, when there are any, the table in five columns and the
    download of the filtered frame. *)
Inductive View : Type :=
| please_collect
| results (count : nat) (shown : option (Csv * Csv)).

(** Lines 325-349. *)
Definition results_view (filtered_df : DataFrame) : Result View :=
  let count := length (rows filtered_df) in
  if (0 <? count)%nat then
    display_df ← select_columns display_columns filtered_df;
    mret (results count (Some (to_csv display_df, to_csv filtered_df)))
  else mret (results count None).

Section SearchPage.

Variable str_contains : string -> Result (string -> bool).

(** Lines 193-349: the whole tab, from the session to what is shown. *)
Definition search_tab (clock : Clock) (inputs : Inputs) (s : Session) : Prog View :=
  match frames s !! "articles_df" with
  | None => mret please_collect
  | Some df =>
      match times s !! "collection_time" with
      | None => call (Raise (KeyError "collection_time"))
      | Some _ =>
          table ← read df;
          c ← call (criteria_of clock inputs table);
          filtered_df ← search_and_filter_tab str_contains (frames s) c;
          match filtered_df with
          | Some l => v ← read l; call (results_view v)
          | None => mret please_collect
          end
      end
  end.

End SearchPage.

(** ** Vocabulary of the statements *)

(** The row carries the given URL. *)
Definition has_url (url : string) (r : Row) : bool := String.eqb (URL r) url.

(** The table [collect] builds from the concatenated fetch results. *)
Definition deduplicated (all_articles : list Article) : DataFrame :=
  {| columns := columns (DataFrame_of all_articles);
     rows := drop_duplicate_rows [] (map row_of_article all_articles) |}.

(** ** Feeds and parsers for the examples *)

Definition entry_with (link published : string) : Entry :=
  {| entry_title := Some "Scope 3 emissions rise";
     entry_link := Some link;
     entry_published := Some published;
     entry_source := None;
     entry_summary := None |}.

(** A date parser that knows one text. *)
Definition epoch_only (text : string) : Result datetime :=
  if String.eqb text "Thu, 01 Jan 1970 00:00:00 GMT"
  then Ok {| wall := 0; tzinfo := Some tzutc |}
  else Raise (Exception "Unknown string format").

(** A feed service that cannot be reached: for every address
    [feedparser.parse] returns a result without entries, with [bozo] set. *)
Definition unreachable (url : string) : Result Feed :=
  Ok {| entries := []; bozo := true |}.

(** [feedparser.parse] raises for keyword [a] and answers every other
    keyword with one entry whose date text is not a date. *)
Definition a_fails (url : string) : Result Feed :=
  if String.eqb url (rss_url "a") then Raise (Exception "timed out")
  else Ok {| entries := [entry_with "u2" "yesterday-ish"]; bozo := false |}.

(** Keyword [a] gives one entry with link [u1]; every other keyword gives
    two entries with links [u1] and [u2]. *)
Definition a_and_b_overlap (url : string) : Result Feed :=
  if String.eqb url (rss_url "a")
  then Ok {| entries := [entry_with "u1" "Thu, 01 Jan 1970 00:00:00 GMT"];
             bozo := false |}
  else Ok {| entries := [entry_with "u1" ""; entry_with "u2" ""]; bozo := false |}.

(** ** Frames for the examples *)

Definition article_at (url : string) (published_date : option datetime) : Article :=
  {| Keyword := "carbon measures";
     Title := "Scope 3 emissions rise";
     URL := url;
     Published := "";
     Published_Date := published_date;
     Source := "Unknown";
     Description := "" |}.

(** 1970-01-01 23:59:59.5 GMT: half a second before the end of day 0. *)
Definition half_second_to_midnight : datetime :=
  {| wall := 86399500000; tzinfo := Some tzutc |}.

(** Midnight at the start of 1970-01-01, read off the machine's clock. *)
Definition local_midnight : datetime := {| wall := 0; tzinfo := Some tzlocal |}.

(** Midnight at the start of 2300-01-01 GMT, day 120530. *)
Definition new_year_2300 : datetime :=
  {| wall := 10413792000000000; tzinfo := Some tzutc |}.

(** The date range of the specification: the timestamp falls on a
    calendar day from [start_date] to [end_date], both included, whatever
    the time of day. *)
Definition within_days (start_date end_date : date) (t : Z) : bool :=
  (start_date <=? date_of t)%Z && (date_of t <=? end_date)%Z.

(** ** Invariants of filtered frames *)

(** The upper bound the date filter compares with, for an end date. *)
Definition end_of_range (end_date : date) : Z :=
  (Timestamp end_date + Timedelta_days 1 - Timedelta_seconds 1)%Z.

(** A frame the date filter has been through: when it has the date
    column, either no row has a date, or the helper column is there, every
    helper cell is up to date, the dates make one datetime column and
    every row is inside the mask. *)
Definition settled (s e : Z) (d : DataFrame) : Prop :=
  has_column "Published_Date" d = true ->
  Forall (fun r => isna r = true) (rows d)
  \/ (has_column compare_column d = true
      /\ datetime_column (rows d) = true
      /\ Forall (fun r => set_compare r = r /\ date_mask s e r = true) (rows d)).

(** A filter that selects rows by a mask of its own and, on a frame with
    the same columns whose rows all pass the mask, returns that frame. *)
Definition selection (f : DataFrame -> Result DataFrame) : Prop :=
  forall d d1,
    f d = Ok d1 ->
    exists mask,
      d1 = boolean_index mask d /\
      forall d2,
        columns d2 = columns d ->
        Forall (fun r => mask r = true) (rows d2) ->
        f d2 = Ok d2.

(** ** Vocabulary of the store *)

(** Every object of [h0] is in [h] with the frame it had in [h0]. *)
Definition agree (h0 h : gmap ref DataFrame) : Prop :=
  forall l d, h0 !! l = Some d -> h !! l = Some d.

(** [l] is an object made after [h0] and holds [v] in [h]. *)
Definition fresh_object (h0 : gmap ref DataFrame) (v : DataFrame) (l : ref)
  (h : gmap ref DataFrame) : Prop :=
  h !! l = Some v /\ h0 !! l = None.

(** What a run that started from a store agreeing with [h0] ended in:
    the objects of [h0] are as they were, a returned value satisfies
    [post] and a raised exception satisfies [fail]. *)
Definition outcome {A : Type} (h0 : gmap ref DataFrame)
  (run : Result A * gmap ref DataFrame)
  (post : A -> gmap ref DataFrame -> Prop) (fail : exn -> Prop) : Prop :=
  agree h0 run.2 /\
  match run.1 with
  | Ok a => post a run.2
  | Raise e => fail e
  end.

(** ** A session for the examples *)

(** A collected table of two records, the first dated half a second
    before the end of day 0, the second without a date. *)
Definition two_records : DataFrame :=
  DataFrame_of [ article_at "u1" (Some half_second_to_midnight);
                 article_at "u2" None ].

(** The session holds the table as object 0, the only object so far. *)
Definition collected_session : gmap string ref := {[ "articles_df" := 0 ]}.
Definition collected_store : gmap ref DataFrame := {[ 0 := two_records ]}.

Definition day_0_only : Criteria :=
  {| search_term := "";
     start_date := 0%Z;
     end_date := 0%Z;
     selected_keywords := [];
     selected_sources := [] |}.

(** Special characters are absent from the text. *)
Definition no_special (pat : string) : bool :=
  forallb (fun c => negb (is_special c)) (list_ascii_of_string pat).

(** ** Vocabulary of the feed address *)

(** The characters a quoted keyword is made of. *)
Definition url_character (c : ascii) : bool :=
  always_safe c || Ascii.eqb c "+" || Ascii.eqb c "%".

(** What [quote_plus] writes for one character. *)
Definition quote_character (c : ascii) : string :=
  if always_safe c then String c EmptyString
  else if Ascii.eqb c " " then "+"
  else percent_escape c.

Definition hex_value (c : ascii) : nat :=
  let n := nat_of_ascii c in
  if in_range 48 57 n then n - 48 else n - 55.

(** A reader of quoted keywords, used to show that quoting loses
    nothing: [+] is a space, [%XY] the byte with hexadecimal digits [XY]. *)
Fixpoint unquote_plus (s : string) : string :=
  match s with
  | EmptyString => EmptyString
  | String c rest =>
      if Ascii.eqb c "+" then String " " (unquote_plus rest)
      else if Ascii.eqb c "%" then
        match rest with
        | String h1 (String h2 rest') =>
            String (ascii_of_nat (16 * hex_value h1 + hex_value h2)) (unquote_plus rest')
        | _ => String c (unquote_plus rest)
        end
      else String c (unquote_plus rest)
  end.

(** ** Vocabulary of collected tables *)

(** The shape of a table a collection run stores in the session: the
    seven article columns, at least one row, no URL twice, and no helper
    cell filled. *)
Definition collected (df : DataFrame) : Prop :=
  columns df = article_columns /\
  rows df <> [] /\
  NoDup (map (fun r : Row => URL r) (rows df)) /\
  Forall (fun r => Published_Date_Compare r = None) (rows df).

(** ** Vocabulary of the page output *)

(** The error line a keyword's fetch adds to the page, if any. *)
Definition failure_lines (feedparser_parse : string -> Result Feed) (keyword : string)
  : list string :=
  match feedparser_parse (rss_url keyword) with
  | Raise e => ["Error fetching " +:+ keyword +:+ ": " +:+ str e]
  | Ok _ => []
  end.

(** What a collection run adds to the page for the keyword at index [i]:
    the status line, the error line of a fetch that raised, the step of
    the progress bar, and the pause, in this order. *)
Definition keyword_events (feedparser_parse : string -> Result Feed) (total i : nat)
  (keyword : string) : list Event :=
  [status_text ("Fetching articles for: " +:+ keyword)]
  ++ map st_error (failure_lines feedparser_parse keyword)
  ++ [progress (i + 1) total; sleep 1].

(** The same for the keywords from index [i] on, one after the other. *)
Fixpoint run_events (feedparser_parse : string -> Result Feed) (total i : nat)
  (keywords : list string) : list Event :=
  match keywords with
  | [] => []
  | keyword :: rest =>
      keyword_events feedparser_parse total i keyword
      ++ run_events feedparser_parse total (S i) rest
  end.

(** ** Vocabulary of the application state *)

(** The sum of the counts of a chart. *)
Definition total_count (counts : gmap string nat) : nat :=
  map_fold (fun _ n acc => n + acc) 0 counts.

(** The session points to a table only together with a collection time,
    and the table it points to is a collected one. *)
Definition session_ok (app : App) : Prop :=
  forall l,
    frames (session app) !! "articles_df" = Some l ->
    (exists df, objects app !! l = Some df /\ collected df) /\
    is_Some (times (session app) !! "collection_time").

(** The table the session points to, if any. *)
Definition stored_table (app : App) : option DataFrame :=
  l ← frames (session app) !! "articles_df"; objects app !! l.

(** The application after a collection that stored the table [df] and
    left [ui] on the page. *)
Definition store_collection (now : Z) (df : DataFrame) (ui : list Event) (app : App)
  : App :=
  {| session :=
       {| frames := <["articles_df" := fresh (dom (objects app))]> (frames (session app));
          times := <["collection_time" := now]> (times (session app)) |};
     objects := <[fresh (dom (objects app)) := df]> (objects app);
     page := ui |}.

(** The application before the first collection. *)
Definition fresh_app : App :=
  {| session := {| frames := ∅; times := ∅ |}; objects := ∅; page := [] |}.

(** A feed service for which [feedparser.parse] raises, whatever the
    keyword. *)
Definition service_down (url : string) : Result Feed := Raise (Exception "timed out").

(** ** Vocabulary of the criteria *)

(** The record is undated or dated inside the range of the code. *)
Definition date_ok (start_date end_date : date) (a : Article) : bool :=
  match Published_Date a with
  | None => true
  | Some d => (Timestamp start_date <=? wall d)%Z && (wall d <=? end_of_range end_date)%Z
  end.

(** No search text, or the compiled text is found in title or description. *)
Definition search_ok (found : string -> bool) (term : string) (a : Article) : bool :=
  negb (truthy term) || found (Title a) || found (Description a).

(** Nothing selected, or the cell is among the selected values. *)
Definition selection_ok (cell : string) (selected : list string) : bool :=
  match selected with
  | [] => true
  | _ :: _ => isin cell selected
  end.

(** The record passes every criterion. *)
Definition passes (found : string -> bool) (c : Criteria) (a : Article) : bool :=
  date_ok (start_date c) (end_date c) a
  && search_ok found (search_term c) a
  && selection_ok (Keyword a) (selected_keywords c)
  && selection_ok (Source a) (selected_sources c).

(** ** Criteria for the examples *)

(** Days 0 and 1, the search text SCOPE, one keyword selected. *)
Definition scope_in_two_days : Criteria :=
  {| search_term := "SCOPE";
     start_date := 0%Z;
     end_date := 1%Z;
     selected_keywords := ["carbon measures"];
     selected_sources := [] |}.

(** The two records with their helper cells filled. *)
Definition two_records_compared : DataFrame :=
  {| columns := article_columns ++ [compare_column];
     rows := map set_compare (rows two_records) |}.

(** ** Widgets for the examples *)

(** Every widget of the search tab left as it is. *)
Definition untouched : Inputs :=
  {| search_input := "";
     from_date := None;
     to_date := None;
     today_button := false;
     last_7_days_button := false;
     last_30_days_button := false;
     all_time_button := false;
     keywords_picked := None;
     sources_picked := None |}.

(** A run at noon of day 10. *)
Definition noon_of_day_10 : Clock :=
  {| now_min := 907200000000;
     now_max := 907200000000;
     now_start := 907200000000;
     now_end := 907200000000 |}.

(** ** An application for the examples *)

(** The two records collected at the start of day 0. *)
Definition collected_app : App :=
  {| session := {| frames := {[ "articles_df" := 0 ]};
                   times := {[ "collection_time" := 0%Z ]} |};
     objects := {[ 0 := two_records ]};
     page := [] |}.

(** * Properties *)

(** ** Helpers *)

Example quote_plus_keyword : quote_plus "scope 3 emissions" = "scope+3+emissions".
Proof. reflexivity. Qed.

Example quote_plus_escapes : quote_plus "a&b/c" = "a%26b%2Fc".
Proof. reflexivity. Qed.

Lemma existsb_eqb_In (x : string) (l : list string) :
  existsb (String.eqb x) l = true <-> In x l.
Proof.
  rewrite existsb_exists. split.
  - intros [y [Hy Heq]]. apply String.eqb_eq in Heq. now subst.
  - intros H. exists x. split; [assumption | apply String.eqb_refl].
Qed.

Lemma existsb_eqb_not_In (x : string) (l : list string) :
  existsb (String.eqb x) l = false <-> ~ In x l.
Proof.
  rewrite <- existsb_eqb_In.
  destruct (existsb (String.eqb x) l); split; intros H; congruence.
Qed.

(** ** Deduplication *)

Lemma drop_duplicate_rows_In (rs : list Row) :
  forall seen r,
    In r (drop_duplicate_rows seen rs) -> In r rs /\ ~ In (URL r) seen.
Proof.
  induction rs as [| x rs IH]; intros seen r Hin; simpl in *.
  - contradiction.
  - destruct (existsb (String.eqb (URL x)) seen) eqn:Hseen.
    + destruct (IH _ _ Hin) as [H1 H2]. split; [now right | assumption].
    + destruct Hin as [-> | Hin].
      * split; [now left | now apply existsb_eqb_not_In].
      * destruct (IH _ _ Hin) as [H1 H2]. split; [now right |].
        intros H. apply H2. now right.
Qed.

Lemma drop_duplicate_rows_NoDup (rs : list Row) :
  forall seen, NoDup (map (fun r : Row => URL r) (drop_duplicate_rows seen rs)).
Proof.
  induction rs as [| x rs IH]; intros seen; simpl.
  - constructor.
  - destruct (existsb (String.eqb (URL x)) seen); [apply IH |].
    simpl. constructor; [| apply IH].
    intros Hin. apply list_elem_of_In, in_map_iff in Hin.
    destruct Hin as [r [Hurl Hr]].
    apply drop_duplicate_rows_In in Hr. destruct Hr as [_ Hr].
    apply Hr. left. now symmetry.
Qed.

Lemma find_none_seen (rs : list Row) :
  forall seen url,
    In url seen -> List.find (has_url url) (drop_duplicate_rows seen rs) = None.
Proof.
  intros seen url Hseen.
  destruct (List.find (has_url url) (drop_duplicate_rows seen rs)) as [r |] eqn:Hf;
    [| reflexivity].
  apply find_some in Hf. destruct Hf as [Hin Hurl].
  apply drop_duplicate_rows_In in Hin. destruct Hin as [_ Hn].
  apply String.eqb_eq in Hurl. rewrite Hurl in Hn. contradiction.
Qed.

Lemma find_first_kept (rs : list Row) :
  forall seen url,
    ~ In url seen ->
    List.find (has_url url) (drop_duplicate_rows seen rs) = List.find (has_url url) rs.
Proof.
  induction rs as [| x rs IH]; intros seen url Hseen; simpl.
  - reflexivity.
  - destruct (existsb (String.eqb (URL x)) seen) eqn:Hx.
    + apply existsb_eqb_In in Hx.
      destruct (has_url url x) eqn:Hu.
      * apply String.eqb_eq in Hu. rewrite Hu in Hx. contradiction.
      * now apply IH.
    + simpl. destruct (has_url url x) eqn:Hu; [reflexivity |].
      apply IH. intros [Heq | Hin]; [| contradiction].
      unfold has_url in Hu. rewrite Heq, String.eqb_refl in Hu. discriminate.
Qed.

Lemma drop_duplicate_rows_sublist (rs : list Row) :
  forall seen, sublist (drop_duplicate_rows seen rs) rs.
Proof.
  induction rs as [| x rs IH]; intros seen; simpl.
  - constructor.
  - destruct (existsb (String.eqb (URL x)) seen).
    + apply sublist_cons. apply IH.
    + apply sublist_skip. apply IH.
Qed.

(** ** The fetcher and the collection loop *)

Section FetcherProperties.

Variable feedparser_parse : string -> Result Feed.
Variable date_parser_parse : string -> Result datetime.

#[local] Abbreviation fetch := (fetch_google_news_rss feedparser_parse date_parser_parse).
#[local] Abbreviation article_of := (make_article date_parser_parse).
#[local] Abbreviation fetched_for := (fetched feedparser_parse date_parser_parse).
#[local] Abbreviation collect_on := (collect feedparser_parse date_parser_parse).
#[local] Abbreviation all_fetched_for := (all_fetched feedparser_parse date_parser_parse).

Lemma for_entries_map (keyword : string) (es : list Entry) :
  forall articles ui,
    for_entries date_parser_parse keyword es (articles, ui)
    = (Ok tt, (articles ++ map (article_of keyword) es, ui)).
Proof.
  induction es as [| entry es IH]; intros articles ui; simpl.
  - now rewrite app_nil_r.
  - unfold mbind, ST_bind, append. simpl. rewrite IH, <- app_assoc. reflexivity.
Qed.

Lemma fetch_ok (keyword : string) (feed : Feed) (ui : list Event) :
  feedparser_parse (rss_url keyword) = Ok feed ->
  fetch keyword ui = (Ok (map (article_of keyword) (entries feed)), ui).
Proof.
  intros H. unfold fetch_google_news_rss, try_except, call, mbind, ST_bind.
  rewrite H, for_entries_map. reflexivity.
Qed.

Lemma fetch_raise (keyword : string) (e : exn) (ui : list Event) :
  feedparser_parse (rss_url keyword) = Raise e ->
  fetch keyword ui
  = (Ok [], ui ++ [st_error ("Error fetching " +:+ keyword +:+ ": " +:+ str e)]).
Proof.
  intros H. unfold fetch_google_news_rss, try_except, call, error, mbind, ST_bind.
  rewrite H. reflexivity.
Qed.

Lemma fetch_returns (keyword : string) (ui : list Event) :
  exists ui', fetch keyword ui = (Ok (fetched_for keyword), ui').
Proof.
  unfold fetched.
  destruct (feedparser_parse (rss_url keyword)) as [feed | e] eqn:H.
  - rewrite (fetch_ok _ _ [] H), (fetch_ok _ _ ui H). now exists ui.
  - rewrite (fetch_raise _ _ [] H), (fetch_raise _ _ ui H). eexists. reflexivity.
Qed.

(** X1: whatever the feed service and the date parser do, a call of
    [fetch_google_news_rss] returns a list of records; no exception
    leaves it. *)
Theorem fetch_never_raises (keyword : string) (ui : list Event) :
  exists articles ui', fetch keyword ui = (Ok articles, ui').
Proof.
  destruct (fetch_returns keyword ui) as [ui' H]. eauto.
Qed.

Lemma for_keywords_returns (total : nat) (keywords : list string) :
  forall i all_articles ui,
    exists ui',
      for_keywords feedparser_parse date_parser_parse total i keywords all_articles ui
      = (Ok (all_articles ++ all_fetched_for keywords), ui').
Proof.
  induction keywords as [| keyword rest IH]; intros i acc ui.
  - exists ui. unfold all_fetched. simpl. now rewrite app_nil_r.
  - simpl. unfold mbind, ST_bind, emit at 1.
    destruct (fetch_returns keyword (ui ++ [status_text ("Fetching articles for: " +:+ keyword)]))
      as [ui1 ->].
    unfold emit.
    edestruct IH as [ui2 ->]. exists ui2.
    unfold all_fetched. simpl. now rewrite app_assoc.
Qed.

Lemma DataFrame_of_rows (all_articles : list Article) :
  rows (DataFrame_of all_articles) = map row_of_article all_articles.
Proof. now destruct all_articles. Qed.

Lemma collect_returns (keywords : list string) (ui : list Event) :
  exists ui',
    collect_on keywords ui
    = (Ok (deduplicated (all_fetched_for keywords)), ui').
Proof.
  unfold collect, mbind, ST_bind.
  destruct (for_keywords_returns (length keywords) keywords 0 [] ui) as [ui' ->].
  exists ui'. simpl.
  destruct (all_fetched_for keywords) as [| a l]; reflexivity.
Qed.

Lemma all_fetched_app (ks1 ks2 : list string) :
  all_fetched_for (ks1 ++ ks2) = all_fetched_for ks1 ++ all_fetched_for ks2.
Proof. unfold all_fetched. now rewrite map_app, concat_app. Qed.

Lemma all_fetched_cons (keyword : string) (rest : list string) :
  all_fetched_for (keyword :: rest) = fetched_for keyword ++ all_fetched_for rest.
Proof. reflexivity. Qed.

Lemma fetched_raise (keyword : string) (e : exn) :
  feedparser_parse (rss_url keyword) = Raise e -> fetched_for keyword = [].
Proof.
  intros H. unfold fetched. now rewrite (fetch_raise _ _ [] H).
Qed.

Lemma fetched_ok (keyword : string) (feed : Feed) :
  feedparser_parse (rss_url keyword) = Ok feed ->
  fetched_for keyword = map (article_of keyword) (entries feed).
Proof.
  intros H. unfold fetched. now rewrite (fetch_ok _ _ [] H).
Qed.


(** When [feedparser.parse] itself raises for a keyword, the fetch of
    that keyword returns the empty list, with one error message added to
    the page and no exception passed on; and a collection run over a list
    holding that keyword returns the table built from what the other
    keywords fetched. *)
Lemma fetch_failure_is_contained (keyword : string) (e : exn) :
  feedparser_parse (rss_url keyword) = Raise e ->
  (forall ui,
      fetch keyword ui
      = (Ok [], ui ++ [st_error ("Error fetching " +:+ keyword +:+ ": " +:+ str e)])) /\
  (forall before after ui,
      exists ui',
        collect_on (before ++ keyword :: after) ui
        = (Ok (deduplicated (all_fetched_for before ++ all_fetched_for after)), ui')).
Proof.
  intros Hraise. split.
  - intros ui. now apply fetch_raise.
  - intros before after ui.
    destruct (collect_returns (before ++ keyword :: after) ui) as [ui' ->].
    exists ui'. do 2 f_equal.
    rewrite all_fetched_app, all_fetched_cons, (fetched_raise _ _ Hraise).
    reflexivity.
Qed.

(** C2 at the failures [feedparser] reports in its result.  For an
    address it cannot reach, or a document that is not well-formed,
    [feedparser.parse] raises nothing: it returns a result with [bozo] set
    and the entries it could still read.  The fetcher then returns one
    record for each of these entries, the empty list when there are none,
    and leaves the page as it was: the handler of lines 63-64 does not run
    and no error is shown. *)
Theorem bozo_failure_goes_unreported (keyword : string) (feed : Feed) (ui : list Event) :
  feedparser_parse (rss_url keyword) = Ok feed ->
  bozo feed = true ->
  fetch keyword ui = (Ok (map (article_of keyword) (entries feed)), ui) /\
  (entries feed = [] -> fetch keyword ui = (Ok [], ui)).
Proof.
  intros Hfeed _. rewrite (fetch_ok keyword feed ui Hfeed).
  split; [reflexivity |]. now intros ->.
Qed.

(** C10: every entry of a feed that parsed gives one record, in feed
    order; an entry whose date text is empty, missing, or refused by the
    date parser gives the record with [Published_Date] absent and every
    other field filled from the entry. *)
Theorem unparsed_date_keeps_record (keyword : string) (feed : Feed) (ui : list Event) :
  feedparser_parse (rss_url keyword) = Ok feed ->
  fetch keyword ui = (Ok (map (article_of keyword) (entries feed)), ui) /\
  (forall entry,
      In entry (entries feed) ->
      (get (entry_published entry) "" = ""
       \/ exists e, date_parser_parse (get (entry_published entry) "") = Raise e) ->
      In {| Keyword := keyword;
            Title := get (entry_title entry) "";
            URL := get (entry_link entry) "";
            Published := get (entry_published entry) "";
            Published_Date := None;
            Source := get (get (entry_source entry) None) "Unknown";
            Description := get (entry_summary entry) "" |}
         (map (article_of keyword) (entries feed))).
Proof.
  intros Hfeed. split; [now apply fetch_ok |].
  intros entry Hin Hdate. apply in_map_iff. exists entry. split; [| assumption].
  unfold make_article, parse_published.
  destruct Hdate as [-> | [e ->]]; [reflexivity |].
  now destruct (truthy (get (entry_published entry) "")).
Qed.

End FetcherProperties.

Lemma bozo_failure_goes_unreported_witness :
  fetch_google_news_rss unreachable epoch_only "carbon measures" [] = (Ok [], []).
Proof.
  exact (proj2 (bozo_failure_goes_unreported unreachable epoch_only "carbon measures"
                  {| entries := []; bozo := true |} [] eq_refl eq_refl) eq_refl).
Defined.

(** A collection run over a feed service that cannot be reached at all:
    every fetch comes back empty, the run returns the empty frame, and
    the page shows the status lines, the progress and the pauses, and not
    one error. *)
Example unreachable_service_scenario :
  collect unreachable epoch_only ["a"; "b"] []
  = (Ok {| columns := []; rows := [] |},
     [ status_text "Fetching articles for: a";
       progress 1 2; sleep 1;
       status_text "Fetching articles for: b";
       progress 2 2; sleep 1 ]).
Proof. reflexivity. Qed.

Lemma fetch_failure_is_contained_witness :
  exists ui',
    collect a_fails epoch_only ([] ++ "a" :: ["b"]) []
    = (Ok (deduplicated (all_fetched a_fails epoch_only []
                         ++ all_fetched a_fails epoch_only ["b"])), ui').
Proof.
  exact (proj2 (fetch_failure_is_contained a_fails epoch_only "a"
                  (Exception "timed out") eq_refl) [] ["b"] []).
Defined.

Lemma unparsed_date_keeps_record_witness :
  In {| Keyword := "b";
        Title := "Scope 3 emissions rise";
        URL := "u2";
        Published := "yesterday-ish";
        Published_Date := None;
        Source := "Unknown";
        Description := "" |}
     (map (make_article epoch_only "b") [entry_with "u2" "yesterday-ish"]).
Proof.
  refine (proj2 (unparsed_date_keeps_record a_fails epoch_only "b"
                   {| entries := [entry_with "u2" "yesterday-ish"]; bozo := false |}
                   [] eq_refl)
            (entry_with "u2" "yesterday-ish") _ _).
  - left. reflexivity.
  - right. exists (Exception "Unknown string format"). reflexivity.
Defined.

(** The failure-isolation scenario of the specification: keyword [a]
    fails, keyword [b] gives one record, and the run returns the table of
    that one record after one error message. *)
Example failure_isolation_scenario :
  collect a_fails epoch_only ["a"; "b"] []
  = (Ok {| columns := article_columns;
           rows := [ row_of_article
                       {| Keyword := "b";
                          Title := "Scope 3 emissions rise";
                          URL := "u2";
                          Published := "yesterday-ish";
                          Published_Date := None;
                          Source := "Unknown";
                          Description := "" |} ] |},
     [ status_text "Fetching articles for: a";
       st_error "Error fetching a: timed out";
       progress 1 2; sleep 1;
       status_text "Fetching articles for: b";
       progress 2 2; sleep 1 ]).
Proof. reflexivity. Qed.

(** The end-to-end scenario of the specification: [u1] is fetched for both
    keywords and stays once, under keyword [a]. *)
Example end_to_end_scenario :
  map (fun r : Row => (URL r, Keyword r))
      (rows (deduplicated (all_fetched a_and_b_overlap epoch_only ["a"; "b"])))
  = [("u1", "a"); ("u2", "b")].
Proof. reflexivity. Qed.

(** ** The date filter *)

Lemma tz_compare_eq (a b : tz) : tz_compare a b = true <-> a = b.
Proof.
  destruct a as [| | x], b as [| | y]; simpl; split; intros H;
    try discriminate; try reflexivity.
  - apply Z.eqb_eq in H. now subst.
  - injection H as ->. apply Z.eqb_refl.
Qed.

Lemma zone_eqb_eq (z1 z2 : option tz) : zone_eqb z1 z2 = true <-> z1 = z2.
Proof.
  destruct z1 as [a |], z2 as [b |]; simpl; split; intros H;
    try discriminate; try reflexivity.
  - apply tz_compare_eq in H. now subst.
  - injection H as ->. now apply tz_compare_eq.
Qed.

Lemma one_zone_iff (rs : list Row) :
  one_zone rs = true
  <-> forall d d', In d (present_dates rs) -> In d' (present_dates rs) -> tzinfo d = tzinfo d'.
Proof.
  unfold one_zone. destruct (present_dates rs) as [| d0 ds].
  - split; [intros _ d d' [] | reflexivity].
  - rewrite forallb_forall. split.
    + intros H d d' Hd Hd'.
      assert (Hall : forall x, In x (d0 :: ds) -> tzinfo d0 = tzinfo x).
      { intros x [<- | Hx]; [reflexivity | now apply zone_eqb_eq, H]. }
      now rewrite <- (Hall d Hd), <- (Hall d' Hd').
    + intros H x Hx. apply zone_eqb_eq. apply H; [now left | now right].
Qed.

Lemma present_dates_In (rs : list Row) (d : datetime) :
  In d (present_dates rs) <-> exists r, In r rs /\ Published_Date r = Some d.
Proof.
  induction rs as [| x rs IH]; simpl.
  - split; [intros [] | intros [r [[] _]]].
  - destruct (Published_Date x) as [dx |] eqn:Hx; simpl; rewrite IH; split.
    + intros [<- | [r [Hr Hd]]]; [exists x | exists r]; intuition.
    + intros [r [[<- | Hr] Hd]]; [left; congruence | right; now exists r].
    + intros [r [Hr Hd]]. exists r. intuition.
    + intros [r [[<- | Hr] Hd]]; [congruence | now exists r].
Qed.

Lemma one_zone_filter (mask : Row -> bool) (rs : list Row) :
  one_zone rs = true -> one_zone (List.filter mask rs) = true.
Proof.
  rewrite !one_zone_iff. intros H d d' Hd Hd'.
  apply present_dates_In in Hd, Hd'.
  destruct Hd as [r [Hr Hd]], Hd' as [r' [Hr' Hd']].
  apply filter_In in Hr, Hr'.
  apply H; apply present_dates_In; [now exists r | now exists r'].
Qed.

Lemma present_dates_set_compare (rs : list Row) :
  present_dates (map set_compare rs) = present_dates rs.
Proof.
  induction rs as [| x rs IH]; simpl; [reflexivity |].
  now rewrite IH.
Qed.

Lemma one_zone_set_compare (rs : list Row) :
  one_zone (map set_compare rs) = one_zone rs.
Proof. unfold one_zone. now rewrite present_dates_set_compare. Qed.

Lemma datetime_column_filter (mask : Row -> bool) (rs : list Row) :
  datetime_column rs = true -> datetime_column (List.filter mask rs) = true.
Proof.
  unfold datetime_column. intros H. apply andb_prop in H. destruct H as [Hz Hb].
  apply andb_true_intro. split; [now apply one_zone_filter |].
  rewrite forallb_forall in *. intros d Hd. apply Hb.
  apply present_dates_In in Hd. destruct Hd as [r [Hr Hd]].
  apply filter_In in Hr. apply present_dates_In. exists r. tauto.
Qed.

Lemma datetime_column_set_compare (rs : list Row) :
  datetime_column (map set_compare rs) = datetime_column rs.
Proof.
  unfold datetime_column. now rewrite one_zone_set_compare, present_dates_set_compare.
Qed.

Lemma set_compare_idem (r : Row) : set_compare (set_compare r) = set_compare r.
Proof. reflexivity. Qed.

Lemma isna_set_compare (r : Row) : isna (set_compare r) = isna r.
Proof. reflexivity. Qed.

Lemma date_mask_isna (s e : Z) (r : Row) : isna r = true -> date_mask s e r = true.
Proof. intros H. unfold date_mask. now rewrite H. Qed.

Lemma filter_all {A : Type} (mask : A -> bool) (l : list A) :
  Forall (fun x => mask x = true) l -> List.filter mask l = l.
Proof.
  induction 1 as [| x l Hx _ IH]; simpl; [reflexivity |].
  now rewrite Hx, IH.
Qed.

Lemma map_fixed {A : Type} (f : A -> A) (l : list A) :
  Forall (fun x => f x = x) l -> map f l = l.
Proof.
  induction 1 as [| x l Hx _ IH]; simpl; [reflexivity |].
  now rewrite Hx, IH.
Qed.

Lemma existsb_notna_false (rs : list Row) :
  existsb notna rs = false <-> Forall (fun r => isna r = true) rs.
Proof.
  induction rs as [| x rs IH]; simpl.
  - split; [constructor | reflexivity].
  - unfold notna at 1. destruct (isna x) eqn:Hx; simpl.
    + rewrite IH. split; [now constructor | now inversion 1].
    + split; [discriminate | inversion 1; congruence].
Qed.

Lemma has_column_appended (label : string) (df : DataFrame) :
  existsb (String.eqb label)
    (if has_column label df then columns df else columns df ++ [label]) = true.
Proof.
  destruct (has_column label df) eqn:H; [exact H |].
  rewrite existsb_app. simpl. rewrite String.eqb_refl. now rewrite orb_true_r.
Qed.

(** The three ways the date filter returns. *)
Lemma date_filter_cases (start_date end_date : date) (df df' : DataFrame) :
  date_filter start_date end_date df = Ok df' ->
  (has_column "Published_Date" df = false /\ df' = df)
  \/ (has_column "Published_Date" df = true /\ existsb notna (rows df) = false
      /\ df' = boolean_index isna df)
  \/ (has_column "Published_Date" df = true /\ existsb notna (rows df) = true
      /\ datetime_column (rows df) = true
      /\ df' = boolean_index
                 (date_mask (Timestamp start_date)
                    (Timestamp end_date + Timedelta_days 1 - Timedelta_seconds 1))
                 {| columns := if has_column compare_column df then columns df
                               else columns df ++ [compare_column];
                    rows := map set_compare (rows df) |}).
Proof.
  unfold date_filter, assign_compare_column.
  destruct (has_column "Published_Date" df) eqn:Hcol.
  - destruct (existsb notna (rows df)) eqn:Hany.
    + destruct (datetime_column (rows df)) eqn:Hzone; simpl; [| discriminate].
      intros [= <-]. right. right. auto.
    + intros [= <-]. right. left. auto.
  - intros [= <-]. now left.
Qed.

Lemma undated_after_assignment (s e : Z) (rs : list Row) :
  map article (List.filter isna (List.filter (date_mask s e) (map set_compare rs)))
  = map article (List.filter isna rs).
Proof.
  induction rs as [| x rs IH]; simpl; [reflexivity |].
  destruct (isna x) eqn:Hx.
  - rewrite (date_mask_isna s e (set_compare x)) by exact Hx.
    simpl. rewrite isna_set_compare, Hx. simpl. now rewrite IH.
  - destruct (date_mask s e (set_compare x)); [| exact IH].
    simpl. rewrite isna_set_compare, Hx. exact IH.
Qed.

Lemma filter_idem {A : Type} (mask : A -> bool) (l : list A) :
  List.filter mask (List.filter mask l) = List.filter mask l.
Proof.
  apply filter_all. apply List.Forall_forall. intros x Hx.
  now apply filter_In in Hx.
Qed.

Lemma date_filter_undated (start_date end_date : date) (df df' : DataFrame) :
  date_filter start_date end_date df = Ok df' ->
  map article (List.filter isna (rows df')) = map article (List.filter isna (rows df)).
Proof.
  intros H. apply date_filter_cases in H.
  destruct H as [[_ ->] | [[_ [_ ->]] | [_ [_ [_ ->]]]]]; simpl.
  - reflexivity.
  - now rewrite filter_idem.
  - apply undated_after_assignment.
Qed.

(** C3: whatever the range, the date filter keeps the records without a
    parsed date: the undated records of the result are those of the
    table, in the same order, and each undated record of the table is
    in the result.  The filter returns on every table whose parsed dates
    make one datetime column: they carry one time zone and each fits a
    timestamp. *)
Theorem undated_rows_survive_date_filter (start_date end_date : date) (df : DataFrame) :
  (datetime_column (rows df) = true ->
   exists df', date_filter start_date end_date df = Ok df') /\
  (forall df',
      date_filter start_date end_date df = Ok df' ->
      map article (List.filter isna (rows df')) = map article (List.filter isna (rows df)) /\
      (forall r, In r (rows df) -> Published_Date r = None ->
                 In (article r) (map article (rows df')))).
Proof.
  split.
  - intros Hzone. unfold date_filter, assign_compare_column. rewrite Hzone.
    destruct (has_column "Published_Date" df); [| eauto].
    destruct (existsb notna (rows df)); simpl; eauto.
  - intros df' H. pose proof (date_filter_undated _ _ _ _ H) as Hund.
    split; [exact Hund |].
    intros r Hin Hnone.
    assert (Hr : In (article r) (map article (List.filter isna (rows df)))).
    { apply in_map. apply filter_In. split; [exact Hin |].
      unfold isna. now rewrite Hnone. }
    rewrite <- Hund in Hr. apply in_map_iff in Hr.
    destruct Hr as [r' [Heq Hr']]. apply filter_In in Hr'.
    apply in_map_iff. exists r'. tauto.
Qed.

Lemma undated_rows_survive_date_filter_witness :
  In (article_at "u1" None)
     (map article
        (rows (boolean_index isna
                 (DataFrame_of [article_at "u1" None])))).
Proof.
  refine (proj2 (proj2 (undated_rows_survive_date_filter 5%Z 3%Z
                          (DataFrame_of [article_at "u1" None])) _ eq_refl)
            (row_of_article (article_at "u1" None)) _ eq_refl).
  left. reflexivity.
Defined.

(** C4 at a timestamp the code drops: 1970-01-01 23:59:59.5 falls on the
    end date of the range from day 0 to day 0, and the date filter removes
    its record, because the upper bound is 23:59:59 of the end date. *)
Theorem last_second_of_end_date_dropped :
  within_days 0%Z 0%Z (wall half_second_to_midnight) = true /\
  date_filter 0%Z 0%Z (DataFrame_of [article_at "u1" (Some half_second_to_midnight)])
  = Ok {| columns := article_columns ++ [compare_column]; rows := [] |}.
Proof. split; reflexivity. Qed.

(** ** Date columns pandas refuses *)

(** A date under [tzutc] and a date under [tzlocal] do not make one
    column, also where the machine runs in UTC and both are at offset
    zero: the bounds of the date pickers and the date filter raise. *)
Example utc_and_local_do_not_mix :
  date_bounds noon_of_day_10
    (DataFrame_of [ article_at "u1" (Some half_second_to_midnight);
                    article_at "u2" (Some local_midnight) ])
  = Raise (ValueError "mixed time zones") /\
  date_filter 0%Z 0%Z
    (DataFrame_of [ article_at "u1" (Some half_second_to_midnight);
                    article_at "u2" (Some local_midnight) ])
  = Raise (ValueError "mixed time zones").
Proof. split; reflexivity. Qed.

(** A date in the year 2300 is beyond a nanosecond timestamp: the bounds
    of the date pickers, the date filter and the JSON export raise, each
    with its own exception, while the CSV export goes through. *)
Example year_2300_is_out_of_bounds :
  date_bounds noon_of_day_10 (DataFrame_of [article_at "u1" (Some new_year_2300)])
  = Raise (OutOfBoundsDatetime "Out of bounds nanosecond timestamp") /\
  date_filter 120530%Z 120530%Z (DataFrame_of [article_at "u1" (Some new_year_2300)])
  = Raise (OutOfBoundsDatetime "Out of bounds nanosecond timestamp") /\
  to_json (DataFrame_of [article_at "u1" (Some new_year_2300)])
  = Raise (OverflowError "datetime out of range") /\
  length (records (to_csv (DataFrame_of [article_at "u1" (Some new_year_2300)]))) = 1.
Proof. repeat split; reflexivity. Qed.

(** ** Idempotence of the filters *)

Lemma frame_eta (d : DataFrame) : {| columns := columns d; rows := rows d |} = d.
Proof. now destruct d. Qed.

Lemma boolean_index_all (mask : Row -> bool) (d : DataFrame) :
  Forall (fun r => mask r = true) (rows d) -> boolean_index mask d = d.
Proof.
  intros H. unfold boolean_index. rewrite (filter_all _ _ H). now destruct d.
Qed.

Lemma Forall_filter_mask {A : Type} (mask : A -> bool) (l : list A) :
  Forall (fun x => mask x = true) (List.filter mask l).
Proof.
  apply List.Forall_forall. intros x Hx. now apply filter_In in Hx.
Qed.

Lemma Forall_filter_keeps {A : Type} (P : A -> Prop) (mask : A -> bool) (l : list A) :
  Forall P l -> Forall P (List.filter mask l).
Proof.
  rewrite !List.Forall_forall. intros H x Hx. apply filter_In in Hx. now apply H.
Qed.

Lemma has_column_same (label : string) (d d' : DataFrame) :
  columns d' = columns d -> has_column label d' = has_column label d.
Proof. unfold has_column. now intros ->. Qed.

Lemma date_filter_settles (start_date end_date : date) (df d1 : DataFrame) :
  date_filter start_date end_date df = Ok d1 ->
  settled (Timestamp start_date) (end_of_range end_date) d1.
Proof.
  intros H. apply date_filter_cases in H.
  destruct H as [[Hcol ->] | [[_ [_ ->]] | [_ [_ [Hzone ->]]]]]; intros Hd.
  - congruence.
  - left. apply Forall_filter_mask.
  - right. simpl. split; [apply has_column_appended |]. split.
    + apply datetime_column_filter. now rewrite datetime_column_set_compare.
    + apply List.Forall_forall. intros r Hr. apply filter_In in Hr.
      destruct Hr as [Hr Hmask]. split; [| exact Hmask].
      apply in_map_iff in Hr. destruct Hr as [r0 [<- _]]. reflexivity.
Qed.

Lemma settled_boolean_index (s e : Z) (mask : Row -> bool) (d : DataFrame) :
  settled s e d -> settled s e (boolean_index mask d).
Proof.
  intros H Hcol. destruct (H Hcol) as [Hna | [Hc [Hz Hall]]].
  - left. now apply Forall_filter_keeps.
  - right. split; [exact Hc |]. split.
    + now apply datetime_column_filter.
    + now apply Forall_filter_keeps.
Qed.

Lemma date_filter_settled (start_date end_date : date) (d : DataFrame) :
  settled (Timestamp start_date) (end_of_range end_date) d ->
  date_filter start_date end_date d = Ok d.
Proof.
  intros H. unfold date_filter.
  destruct (has_column "Published_Date" d) eqn:Hcol; [| reflexivity].
  specialize (H Hcol).
  destruct (existsb notna (rows d)) eqn:Hany.
  - destruct H as [Hna | [Hc [Hz Hall]]].
    + apply existsb_notna_false in Hna. congruence.
    + unfold assign_compare_column. rewrite Hz, Hc. simpl.
      rewrite map_fixed
        by (eapply List.Forall_impl; [| exact Hall]; simpl; tauto).
      rewrite frame_eta. f_equal. apply boolean_index_all.
      eapply List.Forall_impl; [| exact Hall]. simpl. tauto.
  - simpl. f_equal. apply boolean_index_all. now apply existsb_notna_false.
Qed.

(** A filter that was skipped selects with the mask that is true
    everywhere. *)
Ltac skipped_step H :=
  injection H as <-; exists (fun _ => true); split;
  [ symmetry; apply boolean_index_all; now apply List.Forall_forall
  | reflexivity ].

(** A filter that ran selects with its own mask; on a frame with the same
    columns the column checks [Hcols] pass again. *)
Ltac ran_step H :=
  injection H as <-; eexists; split; [reflexivity |];
  let d2 := fresh "d2" in
  let Hsame := fresh "Hsame" in
  let Hall := fresh "Hall" in
  intros d2 Hsame Hall;
  rewrite ?(has_column_same _ _ _ Hsame);
  repeat match goal with
         | Hcol : has_column _ _ = true |- _ => rewrite Hcol; clear Hcol
         end;
  simpl; f_equal; now apply boolean_index_all.

Lemma keyword_filter_selection (selected : list string) :
  selection (keyword_filter selected).
Proof.
  intros d d1 H. unfold keyword_filter in *. destruct selected as [| k ks].
  - skipped_step H.
  - destruct (has_column "Keyword" d) eqn:Hcol; [| discriminate]. ran_step H.
Qed.

Lemma source_filter_selection (selected : list string) :
  selection (source_filter selected).
Proof.
  intros d d1 H. unfold source_filter in *. destruct selected as [| k ks].
  - skipped_step H.
  - destruct (has_column "Source" d) eqn:Hcol; [| discriminate]. ran_step H.
Qed.

Section FilterProperties.

Variable str_contains : string -> Result (string -> bool).

Lemma search_filter_selection (term : string) :
  selection (search_filter str_contains term).
Proof.
  intros d d1 H. unfold search_filter in *. destruct (truthy term).
  - destruct (has_column "Title" d) eqn:Ht; [| discriminate].
    destruct (str_contains term) as [found | e]; simpl in *; [| discriminate].
    destruct (has_column "Description" d) eqn:Hd; [| discriminate].
    ran_step H.
  - skipped_step H.
Qed.

(** C7: filtering the result of a filter once more with the same criteria
    returns that result; when the first pass raises there is no result to
    filter and the exception stands. *)
Theorem apply_filters_idempotent (c : Criteria) (df : DataFrame) :
  apply_filters str_contains c df ≫= apply_filters str_contains c
  = apply_filters str_contains c df.
Proof.
  destruct (apply_filters str_contains c df) as [d4 | e] eqn:H; [| reflexivity].
  simpl. unfold apply_filters in H.
  destruct (date_filter (start_date c) (end_date c) df) as [d1 | ?] eqn:H1;
    simpl in H; [| discriminate].
  destruct (search_filter str_contains (search_term c) d1) as [d2 | ?] eqn:H2;
    simpl in H; [| discriminate].
  destruct (keyword_filter (selected_keywords c) d2) as [d3 | ?] eqn:H3;
    simpl in H; [| discriminate].
  apply date_filter_settles in H1.
  apply search_filter_selection in H2. destruct H2 as [m2 [-> Hagain2]].
  apply keyword_filter_selection in H3. destruct H3 as [m3 [-> Hagain3]].
  apply source_filter_selection in H. destruct H as [m4 [-> Hagain4]].
  unfold apply_filters.
  rewrite date_filter_settled by (do 3 apply settled_boolean_index; exact H1).
  simpl. rewrite Hagain2; [| reflexivity |].
  - simpl. rewrite Hagain3; [| reflexivity |].
    + simpl. apply Hagain4; [reflexivity |]. apply Forall_filter_mask.
    + simpl. apply Forall_filter_keeps, Forall_filter_mask.
  - simpl. do 2 apply Forall_filter_keeps. apply Forall_filter_mask.
Qed.

Lemma date_filter_in_range (start_date end_date : date) (df : DataFrame) :
  datetime_column (rows df) = true ->
  Forall (fun r => date_mask (Timestamp start_date) (end_of_range end_date)
                     (set_compare r) = true) (rows df) ->
  exists df',
    date_filter start_date end_date df = Ok df' /\
    map article (rows df') = map article (rows df).
Proof.
  intros Hzone Hall. unfold date_filter, assign_compare_column. rewrite Hzone.
  destruct (has_column "Published_Date" df); [| eauto].
  destruct (existsb notna (rows df)) eqn:Hany; simpl.
  - eexists. split; [reflexivity |]. simpl.
    rewrite filter_all.
    + rewrite map_map. reflexivity.
    + apply List.Forall_forall. intros r Hr. apply in_map_iff in Hr.
      destruct Hr as [r0 [<- Hr0]].
      rewrite List.Forall_forall in Hall. now apply Hall.
  - eexists. split; [reflexivity |]. simpl.
    rewrite filter_all; [reflexivity | now apply existsb_notna_false].
Qed.

(** C6: with no keyword selected the keyword filter returns the frame it
    is given, and so does the source filter with no source selected; the
    whole filter then is the filter without that step.  With no search
    text either and every dated record inside the date range, the result
    has the records of the table, unchanged and in order. *)
Theorem empty_selection_is_no_filter (c : Criteria) (df : DataFrame) :
  keyword_filter [] df = Ok df /\
  source_filter [] df = Ok df /\
  apply_filters str_contains
    {| search_term := search_term c;
       start_date := start_date c;
       end_date := end_date c;
       selected_keywords := [];
       selected_sources := selected_sources c |} df
  = (d ← date_filter (start_date c) (end_date c) df;
     d ← search_filter str_contains (search_term c) d;
     source_filter (selected_sources c) d) /\
  apply_filters str_contains
    {| search_term := search_term c;
       start_date := start_date c;
       end_date := end_date c;
       selected_keywords := selected_keywords c;
       selected_sources := [] |} df
  = (d ← date_filter (start_date c) (end_date c) df;
     d ← search_filter str_contains (search_term c) d;
     keyword_filter (selected_keywords c) d) /\
  (datetime_column (rows df) = true ->
   Forall (fun r => date_mask (Timestamp (start_date c)) (end_of_range (end_date c))
                      (set_compare r) = true) (rows df) ->
   exists df',
     apply_filters str_contains
       {| search_term := "";
          start_date := start_date c;
          end_date := end_date c;
          selected_keywords := [];
          selected_sources := [] |} df = Ok df' /\
     map article (rows df') = map article (rows df)).
Proof.
  split; [reflexivity |]. split; [reflexivity |]. split; [| split].
  - unfold apply_filters. simpl.
    destruct (date_filter (start_date c) (end_date c) df) as [d1 |]; [| reflexivity].
    simpl. now destruct (search_filter str_contains (search_term c) d1).
  - unfold apply_filters. simpl.
    destruct (date_filter (start_date c) (end_date c) df) as [d1 |]; [| reflexivity].
    simpl. destruct (search_filter str_contains (search_term c) d1) as [d2 |];
      [| reflexivity].
    simpl. now destruct (keyword_filter (selected_keywords c) d2).
  - intros Hzone Hall.
    destruct (date_filter_in_range _ _ _ Hzone Hall) as [df' [Hrun Hrows]].
    exists df'. split; [| exact Hrows].
    unfold apply_filters. simpl. now rewrite Hrun.
Qed.

End FilterProperties.

Lemma empty_selection_is_no_filter_witness :
  exists df',
    apply_filters simple_engine
      {| search_term := "";
         start_date := 0%Z;
         end_date := 0%Z;
         selected_keywords := [];
         selected_sources := [] |}
      (DataFrame_of [article_at "u1" (Some {| wall := 0; tzinfo := None |});
                     article_at "u2" None]) = Ok df' /\
    map article (rows df')
    = map article
        (rows (DataFrame_of [article_at "u1" (Some {| wall := 0; tzinfo := None |});
                             article_at "u2" None])).
Proof.
  refine (proj2 (proj2 (proj2 (proj2
            (empty_selection_is_no_filter simple_engine
               {| search_term := "scope";
                  start_date := 0%Z;
                  end_date := 0%Z;
                  selected_keywords := ["carbon measures"];
                  selected_sources := [] |}
               (DataFrame_of [article_at "u1" (Some {| wall := 0; tzinfo := None |});
                              article_at "u2" None]))))) eq_refl _).
  repeat constructor.
Defined.

(** ** The search filter *)

Lemma parse_simple_literal (pat : string) :
  no_special pat = true ->
  parse_simple pat = Some (map literal (list_ascii_of_string pat)).
Proof.
  unfold no_special. induction pat as [| c pat IH]; simpl; [reflexivity |].
  intros H. apply andb_prop in H. destruct H as [Hc Hrest].
  destruct (Ascii.eqb c ".") eqn:Hdot.
  - apply Ascii.eqb_eq in Hdot. subst c. discriminate.
  - destruct (is_special c); [discriminate |].
    now rewrite (IH Hrest).
Qed.

Lemma match_at_literal (pat : string) :
  forall s, match_at (map literal (list_ascii_of_string pat)) s = prefix_ci pat s.
Proof.
  induction pat as [| c pat IH]; intros s; simpl; [reflexivity |].
  destruct s as [| b s]; [reflexivity |]. simpl. now rewrite IH.
Qed.

Lemma re_search_literal (pat s : string) :
  re_search (map literal (list_ascii_of_string pat)) s = substring_ci pat s.
Proof.
  induction s as [| b s IH]; simpl.
  - now rewrite match_at_literal.
  - now rewrite match_at_literal, IH.
Qed.

Section SearchProperties.

Variable str_contains : string -> Result (string -> bool).
Hypothesis engine : python_re str_contains.

(** X13: for a search text without special characters the filter selects
    by case-insensitive substring of title or description, on a frame of
    ASCII text. *)
Theorem search_filter_literal (term : string) (df : DataFrame) :
  truthy term = true ->
  ascii_only term = true ->
  no_special term = true ->
  has_column "Title" df = true ->
  has_column "Description" df = true ->
  Forall (fun r : Row => ascii_only (Title r) = true /\ ascii_only (Description r) = true)
         (rows df) ->
  search_filter str_contains term df
  = Ok (boolean_index
          (fun r => substring_ci term (Title r) || substring_ci term (Description r)) df).
Proof.
  intros Hterm Hascii Hplain Ht Hd Htext.
  destruct (engine term _ Hascii (parse_simple_literal _ Hplain)) as [found [Hc Hfound]].
  unfold search_filter. rewrite Hterm, Ht, Hc. simpl. rewrite Hd.
  simpl. f_equal. unfold boolean_index. f_equal.
  rewrite List.Forall_forall in Htext.
  apply filter_ext_in. intros r Hr. destruct (Htext r Hr) as [H1 H2].
  now rewrite (Hfound _ H1), (Hfound _ H2), !re_search_literal.
Qed.

(** C5 at a search text the code reads as a pattern: the text [.] occurs
    neither in the title nor in the description of the record, and the
    search filter keeps the record, because the dot of a regular
    expression matches any character. *)
Theorem search_text_is_a_pattern :
  search_filter str_contains "." (DataFrame_of [article_at "u1" None])
  = Ok (DataFrame_of [article_at "u1" None]) /\
  substring_ci "." (Title (article_at "u1" None)) = false /\
  substring_ci "." (Description (article_at "u1" None)) = false.
Proof.
  split; [| split; reflexivity].
  destruct (engine "." [any_char] eq_refl eq_refl) as [found [Hc Hfound]].
  unfold search_filter. simpl. rewrite Hc. simpl.
  unfold boolean_index. simpl.
  rewrite (Hfound "Scope 3 emissions rise" eq_refl). reflexivity.
Qed.

End SearchProperties.

Lemma simple_engine_python_re : python_re simple_engine.
Proof.
  intros pat atoms _ Hparse. unfold simple_engine. rewrite Hparse. eauto.
Qed.

Lemma search_text_is_a_pattern_witness :
  search_filter simple_engine "." (DataFrame_of [article_at "u1" None])
  = Ok (DataFrame_of [article_at "u1" None]).
Proof.
  exact (proj1 (search_text_is_a_pattern simple_engine simple_engine_python_re)).
Defined.

Lemma search_filter_literal_witness :
  search_filter simple_engine "SCOPE" (DataFrame_of [article_at "u1" None])
  = Ok (boolean_index
          (fun r => substring_ci "SCOPE" (Title r) || substring_ci "SCOPE" (Description r))
          (DataFrame_of [article_at "u1" None])).
Proof.
  refine (search_filter_literal simple_engine simple_engine_python_re "SCOPE"
            (DataFrame_of [article_at "u1" None])
            eq_refl eq_refl eq_refl eq_refl eq_refl _).
  repeat constructor.
Defined.

(** The case-insensitivity example of the specification: the search
    text SCOPE finds the title that holds Scope. *)
Example search_SCOPE_matches_title :
  search_filter simple_engine "SCOPE" (DataFrame_of [article_at "u1" None])
  = Ok (DataFrame_of [article_at "u1" None]).
Proof. reflexivity. Qed.

(** An empty search text skips the filter, whatever the frame. *)
Theorem search_filter_empty (str_contains : string -> Result (string -> bool))
  (df : DataFrame) :
  search_filter str_contains "" df = Ok df.
Proof. reflexivity. Qed.

(** ** Exports *)

Lemma to_csv_shape (df : DataFrame) :
  header (to_csv df) = columns df /\
  length (records (to_csv df)) = length (rows df) /\
  Forall (fun record => length record = length (columns df)) (records (to_csv df)).
Proof.
  unfold to_csv. simpl. split; [reflexivity |]. split.
  - apply length_map.
  - apply List.Forall_forall. intros record Hin. apply in_map_iff in Hin.
    destruct Hin as [r [<- _]]. apply length_map.
Qed.

Lemma json_records_keys (df : DataFrame) :
  length (json_records df) = length (rows df) /\
  Forall (fun object => map fst object = columns df) (json_records df).
Proof.
  unfold json_records. split.
  - apply length_map.
  - apply List.Forall_forall. intros object Hin. apply in_map_iff in Hin.
    destruct Hin as [r [<- _]]. rewrite map_map. simpl. apply map_id.
Qed.

Lemma deduplicated_columns (all_articles : list Article) :
  df_empty (deduplicated all_articles) = false ->
  columns (deduplicated all_articles) = article_columns.
Proof.
  unfold deduplicated, df_empty. simpl.
  destruct all_articles as [| a l]; simpl; [discriminate | reflexivity].
Qed.

Lemma to_json_inv (df : DataFrame) (objects : list (list (string * Cell))) :
  to_json df = Ok objects -> objects = json_records df.
Proof.
  unfold to_json. destruct (forallb in_bounds (date_cells df)); [| discriminate].
  now intros [= <-].
Qed.

Lemma to_json_returns (df : DataFrame) :
  forallb in_bounds (present_dates (rows df)) = true ->
  to_json df = Ok (json_records df).
Proof.
  intros H. unfold to_json, date_cells.
  destruct (has_column "Published_Date" df); [now rewrite H | reflexivity].
Qed.


(** X17: the filtered frame of a collected table with a parsed date
    carries the helper column [Published_Date_Compare] after the seven
    article columns, whatever the criteria. *)
Theorem filtered_columns (str_contains : string -> Result (string -> bool))
  (c : Criteria) (df filtered_df : DataFrame) :
  columns df = article_columns ->
  existsb notna (rows df) = true ->
  apply_filters str_contains c df = Ok filtered_df ->
  columns filtered_df = article_columns ++ [compare_column].
Proof.
  intros Hcols Hany H. unfold apply_filters in H.
  destruct (date_filter (start_date c) (end_date c) df) as [d1 | ?] eqn:H1;
    simpl in H; [| discriminate].
  destruct (search_filter str_contains (search_term c) d1) as [d2 | ?] eqn:H2;
    simpl in H; [| discriminate].
  destruct (keyword_filter (selected_keywords c) d2) as [d3 | ?] eqn:H3;
    simpl in H; [| discriminate].
  apply search_filter_selection in H2. destruct H2 as [m2 [-> _]].
  apply keyword_filter_selection in H3. destruct H3 as [m3 [-> _]].
  apply source_filter_selection in H. destruct H as [m4 [-> _]].
  simpl. apply date_filter_cases in H1.
  destruct H1 as [[Hcol _] | [[_ [Hno _]] | [_ [_ [_ ->]]]]].
  - unfold has_column in Hcol. rewrite Hcols in Hcol. discriminate.
  - congruence.
  - simpl. unfold has_column. rewrite Hcols. reflexivity.
Qed.

Lemma filtered_columns_witness :
  columns {| columns := article_columns ++ [compare_column];
             rows := [set_compare (row_of_article (article_at "u2" None))] |}
  = article_columns ++ [compare_column].
Proof.
  exact (filtered_columns simple_engine day_0_only two_records _
           eq_refl eq_refl eq_refl).
Defined.

(** C9 at a table the filtered export gets wrong: one record with a parsed
    date, filtered with a range that holds it and nothing else selected.
    The collection export has the seven columns; the filtered export has
    an eighth, [Published_Date_Compare]. *)
Theorem filtered_export_has_helper_column :
  header (to_csv (DataFrame_of [article_at "u1" (Some half_second_to_midnight)]))
  = [ "Keyword"; "Title"; "URL"; "Published"; "Published_Date"; "Source";
      "Description" ] /\
  exists filtered_df,
    apply_filters simple_engine
      {| search_term := "";
         start_date := 0%Z;
         end_date := 1%Z;
         selected_keywords := ["carbon measures"];
         selected_sources := [] |}
      (DataFrame_of [article_at "u1" (Some half_second_to_midnight)]) = Ok filtered_df /\
    length (rows filtered_df) = 1 /\
    header (to_csv filtered_df)
    = [ "Keyword"; "Title"; "URL"; "Published"; "Published_Date"; "Source";
        "Description"; "Published_Date_Compare" ].
Proof.
  split; [reflexivity |]. eexists. split; [reflexivity |]. split; reflexivity.
Qed.

(** ** The filters over frame objects *)

Lemma outcome_bind {A B : Type} (h0 h : gmap ref DataFrame) (m : Prog A)
  (f : A -> Prog B) (mid : A -> gmap ref DataFrame -> Prop)
  (post : B -> gmap ref DataFrame -> Prop) (fail1 fail : exn -> Prop) :
  outcome h0 (m h) mid fail1 ->
  (forall e, fail1 e -> fail e) ->
  (forall a h1, agree h0 h1 -> mid a h1 -> outcome h0 (f a h1) post fail) ->
  outcome h0 ((m ≫= f) h) post fail.
Proof.
  unfold outcome, mbind, ST_bind. destruct (m h) as [[a | e] h1]; simpl.
  - intros [Hagree Hmid] _ Hnext. now apply Hnext.
  - intros [Hagree Hfail] Himp _. auto.
Qed.

Lemma alloc_outcome (h0 h : gmap ref DataFrame) (v : DataFrame) (fail : exn -> Prop) :
  agree h0 h ->
  outcome h0 (alloc v h) (fresh_object h0 v) fail.
Proof.
  intros Hagree. unfold outcome, alloc, fresh_object. simpl.
  assert (Hnew : h !! fresh (dom h) = None).
  { apply not_elem_of_dom. apply is_fresh. }
  assert (Hold : h0 !! fresh (dom h) = None).
  { destruct (h0 !! fresh (dom h)) as [d |] eqn:Hd; [| reflexivity].
    apply Hagree in Hd. congruence. }
  split; [| split; [apply lookup_insert_eq | exact Hold]].
  intros l d Hl. rewrite lookup_insert_ne; [now apply Hagree |].
  intros <-. congruence.
Qed.

Lemma write_outcome (h0 h : gmap ref DataFrame) (l : ref) (v : DataFrame)
  (fail : exn -> Prop) :
  agree h0 h -> h0 !! l = None ->
  outcome h0 (write l v h) (fun _ => fresh_object h0 v l) fail.
Proof.
  intros Hagree Hold. unfold outcome, write, fresh_object. simpl.
  split; [| split; [apply lookup_insert_eq | exact Hold]].
  intros l' d Hl. rewrite lookup_insert_ne; [now apply Hagree |].
  intros <-. congruence.
Qed.

Lemma read_object (h : gmap ref DataFrame) (l : ref) (v : DataFrame) :
  h !! l = Some v -> read l h = (Ok v, h).
Proof. intros H. unfold read. now rewrite H. Qed.

Lemma bind_read {B : Type} (h : gmap ref DataFrame) (l : ref) (v : DataFrame)
  (f : DataFrame -> Prog B) :
  h !! l = Some v -> (read l ≫= f) h = f v h.
Proof. intros H. unfold mbind, ST_bind. now rewrite (read_object _ _ _ H). Qed.

Lemma bind_call_ok {A B : Type} (h : gmap ref DataFrame) (a : A) (f : A -> Prog B) :
  (call (Ok a) ≫= f) h = f a h.
Proof. reflexivity. Qed.

Lemma bind_call_raise {A B : Type} (h : gmap ref DataFrame) (e : exn) (f : A -> Prog B) :
  (call (Raise e) ≫= f) h = (Raise e, h).
Proof. reflexivity. Qed.

Lemma outcome_weaken {A : Type} (h0 : gmap ref DataFrame)
  (run : Result A * gmap ref DataFrame)
  (post post' : A -> gmap ref DataFrame -> Prop) (fail fail' : exn -> Prop) :
  outcome h0 run post fail ->
  (forall a h, post a h -> post' a h) ->
  (forall e, fail e -> fail' e) ->
  outcome h0 run post' fail'.
Proof.
  unfold outcome. destruct run as [[a | e] h]; simpl; intros [H1 H2] Hp Hf; auto.
Qed.

Lemma date_filter_obj_outcome (h0 h : gmap ref DataFrame) (s e : date) (l : ref)
  (v : DataFrame) :
  agree h0 h -> fresh_object h0 v l h ->
  outcome h0 (date_filter_obj s e l h)
    (fun l' h' => exists v', date_filter s e v = Ok v' /\ fresh_object h0 v' l' h')
    (fun ex => date_filter s e v = Raise ex).
Proof.
  intros Hagree [Hl Hold]. unfold date_filter_obj, date_filter.
  rewrite (bind_read _ _ _ _ Hl).
  destruct (has_column "Published_Date" v).
  - destruct (existsb notna (rows v)).
    + destruct (assign_compare_column v) as [v1 | ex].
      * rewrite bind_call_ok.
        eapply outcome_bind.
        -- apply (write_outcome h0 h l v1 (fun _ => False) Hagree Hold).
        -- intros ? [].
        -- intros _ h1 Hagree1 _.
           eapply outcome_weaken.
           ++ apply (alloc_outcome h0 h1 _ (fun _ => False) Hagree1).
           ++ intros l' h2 Hfresh. eexists. split; [reflexivity | exact Hfresh].
           ++ intros ? [].
      * rewrite bind_call_raise. split; [exact Hagree | reflexivity].
    + eapply outcome_weaken.
      * apply (alloc_outcome h0 h _ (fun _ => False) Hagree).
      * intros l' h2 Hfresh. eexists. split; [reflexivity | exact Hfresh].
      * intros ? [].
  - split; [exact Hagree |]. simpl. eexists. split; [reflexivity |].
    split; assumption.
Qed.

Lemma select_obj_outcome (h0 h : gmap ref DataFrame)
  (f : DataFrame -> Result DataFrame) (skipped : bool) (l : ref) (v : DataFrame) :
  (skipped = true -> f v = Ok v) ->
  agree h0 h -> fresh_object h0 v l h ->
  outcome h0 (select_obj f skipped l h)
    (fun l' h' => exists v', f v = Ok v' /\ fresh_object h0 v' l' h')
    (fun ex => f v = Raise ex).
Proof.
  intros Hskip Hagree [Hl Hold]. unfold select_obj. destruct skipped.
  - split; [exact Hagree |]. simpl. exists v. split; [now apply Hskip |].
    split; assumption.
  - rewrite (bind_read _ _ _ _ Hl). destruct (f v) as [v1 | ex].
    + rewrite bind_call_ok. eapply outcome_weaken.
      * apply (alloc_outcome h0 h _ (fun _ => False) Hagree).
      * intros l' h2 Hfresh. eexists. split; [reflexivity | exact Hfresh].
      * intros ? [].
    + rewrite bind_call_raise. split; [exact Hagree | reflexivity].
Qed.

Section SearchTabProperties.

Variable str_contains : string -> Result (string -> bool).

Lemma agree_refl (h : gmap ref DataFrame) : agree h h.
Proof. intros l d H. exact H. Qed.

Lemma search_and_filter_tab_outcome (session_state : gmap string ref) (c : Criteria)
  (h : gmap ref DataFrame) (df : ref) (table : DataFrame) :
  session_state !! "articles_df" = Some df ->
  h !! df = Some table ->
  outcome h (search_and_filter_tab str_contains session_state c h)
    (fun r h' =>
       exists filtered_df v,
         r = Some filtered_df /\
         apply_filters str_contains c table = Ok v /\
         fresh_object h v filtered_df h')
    (fun ex => apply_filters str_contains c table = Raise ex).
Proof.
  intros Hsession Hdf. unfold search_and_filter_tab. rewrite Hsession.
  rewrite (bind_read _ _ _ _ Hdf).
  eapply outcome_bind with (fail1 := fun _ => False).
  { apply alloc_outcome. apply agree_refl. }
  { intros ? []. }
  intros l0 h0 Hagree0 Hcopy.
  eapply outcome_bind.
  { apply (date_filter_obj_outcome h h0 (start_date c) (end_date c) l0 table Hagree0 Hcopy). }
  { intros ex H. unfold apply_filters. now rewrite H. }
  intros l1 h1 Hagree1 [v1 [Hv1 Hfresh1]].
  eapply outcome_bind.
  { apply (select_obj_outcome h h1 _ _ l1 v1); [| exact Hagree1 | exact Hfresh1].
    unfold search_filter. now destruct (truthy (search_term c)). }
  { intros ex H. unfold apply_filters. rewrite Hv1. simpl. now rewrite H. }
  intros l2 h2 Hagree2 [v2 [Hv2 Hfresh2]].
  eapply outcome_bind.
  { apply (select_obj_outcome h h2 _ _ l2 v2); [| exact Hagree2 | exact Hfresh2].
    now destruct (selected_keywords c). }
  { intros ex H. unfold apply_filters. rewrite Hv1. simpl. rewrite Hv2. simpl.
    now rewrite H. }
  intros l3 h3 Hagree3 [v3 [Hv3 Hfresh3]].
  eapply outcome_bind.
  { apply (select_obj_outcome h h3 _ _ l3 v3); [| exact Hagree3 | exact Hfresh3].
    now destruct (selected_sources c). }
  { intros ex H. unfold apply_filters. rewrite Hv1. simpl. rewrite Hv2. simpl.
    rewrite Hv3. simpl. exact H. }
  intros l4 h4 Hagree4 [v4 [Hv4 Hfresh4]].
  split; [exact Hagree4 |]. simpl. exists l4, v4. split; [reflexivity |].
  split; [| exact Hfresh4].
  unfold apply_filters. rewrite Hv1. simpl. rewrite Hv2. simpl. rewrite Hv3.
  simpl. exact Hv4.
Qed.

(** C8: a run of the filters over the session's table leaves every frame
    object that was there before the run as it was, the table included;
    what the run returns is a new object, and the frame in it is the
    value of the filters on the table.  Where the filters raise, the
    table is as it was all the same. *)
Theorem filtering_leaves_table_unchanged (session_state : gmap string ref)
  (c : Criteria) (h : gmap ref DataFrame) (df : ref) (table : DataFrame) :
  session_state !! "articles_df" = Some df ->
  h !! df = Some table ->
  (search_and_filter_tab str_contains session_state c h).2 !! df = Some table /\
  (forall l d,
      h !! l = Some d ->
      (search_and_filter_tab str_contains session_state c h).2 !! l = Some d) /\
  match (search_and_filter_tab str_contains session_state c h).1 with
  | Ok (Some filtered_df) =>
      filtered_df <> df /\
      exists v,
        (search_and_filter_tab str_contains session_state c h).2 !! filtered_df = Some v /\
        apply_filters str_contains c table = Ok v
  | Ok None => False
  | Raise ex => apply_filters str_contains c table = Raise ex
  end.
Proof.
  intros Hsession Hdf.
  destruct (search_and_filter_tab_outcome session_state c h df table Hsession Hdf)
    as [Hagree Hpost].
  split; [now apply Hagree |]. split; [exact Hagree |].
  destruct ((search_and_filter_tab str_contains session_state c h).1) as [[l |] | ex].
  - destruct Hpost as [l' [v [[= <-] [Hv [Hl Hnew]]]]]. split.
    + intros ->. congruence.
    + now exists v.
  - destruct Hpost as [l' [v [Heq _]]]. discriminate.
  - exact Hpost.
Qed.

End SearchTabProperties.

Lemma filtering_leaves_table_unchanged_witness :
  (search_and_filter_tab simple_engine collected_session day_0_only collected_store).2
    !! 0 = Some two_records.
Proof.
  exact (proj1 (filtering_leaves_table_unchanged simple_engine collected_session
                  day_0_only collected_store 0 two_records eq_refl eq_refl)).
Defined.

(** The column assignment of the date filter changes the object it is
    applied to: run on the session's table itself, without the copy, it
    would leave the table with the helper column. *)
Example assignment_is_in_place :
  (date_filter_obj 0%Z 0%Z 0 collected_store).2 !! 0
  = Some {| columns := article_columns ++ [compare_column];
            rows := map set_compare (rows two_records) |}.
Proof. vm_compute. reflexivity. Qed.

(** The run of the tab on the example session: the filtered frame is a
    third object, after the table and its copy. *)
Example filtered_frame_is_new :
  (search_and_filter_tab simple_engine collected_session day_0_only collected_store).1
  = Ok (Some 2).
Proof. vm_compute. reflexivity. Qed.

(** ** The range of the date filter *)

(** X10: the dated records the date filter keeps are those whose wall-clock
    time lies from midnight of the start date to 23:59:59 of the end date,
    bounds included. *)
Theorem date_filter_range (start_date end_date : date) (df df' : DataFrame)
  (r : Row) (d : datetime) :
  has_column "Published_Date" df = true ->
  date_filter start_date end_date df = Ok df' ->
  In r (rows df) ->
  Published_Date r = Some d ->
  In (article r) (map article (rows df'))
  <-> (Timestamp start_date <= wall d <= end_of_range end_date)%Z.
Proof.
  intros Hcol Hrun Hin Hdate. apply date_filter_cases in Hrun.
  destruct Hrun as [[Hno _] | [[_ [Hnone _]] | [_ [_ [_ ->]]]]].
  - congruence.
  - apply existsb_notna_false in Hnone. rewrite List.Forall_forall in Hnone.
    specialize (Hnone r Hin). unfold isna in Hnone. rewrite Hdate in Hnone.
    discriminate.
  - simpl. split.
    + intros H. apply in_map_iff in H. destruct H as [r' [Heq Hr']].
      apply filter_In in Hr'. destruct Hr' as [Hr' Hmask].
      apply in_map_iff in Hr'. destruct Hr' as [r0 [<- Hr0]].
      simpl in Heq. unfold date_mask, isna in Hmask. simpl in Hmask.
      rewrite Heq, Hdate in Hmask. simpl in Hmask.
      apply andb_prop in Hmask. destruct Hmask as [H1 H2].
      apply Z.leb_le in H1, H2. unfold end_of_range. lia.
    + intros [H1 H2]. apply in_map_iff. exists (set_compare r). split; [reflexivity |].
      apply filter_In. split; [now apply in_map |].
      unfold date_mask, isna. simpl. rewrite Hdate. simpl.
      apply andb_true_intro. split; apply Z.leb_le; [exact H1 | exact H2].
Qed.

Lemma date_filter_range_witness :
  In (article_at "u1" (Some half_second_to_midnight))
     (map article
        (rows (boolean_index
                 (date_mask (Timestamp 0%Z) (end_of_range 1%Z))
                 {| columns := article_columns ++ [compare_column];
                    rows := map set_compare (rows two_records) |})))
  <-> (Timestamp 0 <= wall half_second_to_midnight <= end_of_range 1)%Z.
Proof.
  refine (date_filter_range 0%Z 1%Z two_records _
            (row_of_article (article_at "u1" (Some half_second_to_midnight)))
            half_second_to_midnight eq_refl eq_refl _ eq_refl).
  left. reflexivity.
Defined.

(** X11: on timestamps of whole seconds the range of the code is the range of
    calendar days from the start date to the end date; on any timestamp
    the code keeps nothing outside those days. *)
Theorem whole_seconds_range (start_date end_date : date) (t : Z) :
  ((Timestamp start_date <= t <= end_of_range end_date)%Z ->
   within_days start_date end_date t = true) /\
  ((t mod microseconds_per_second = 0)%Z ->
   within_days start_date end_date t = true ->
   (Timestamp start_date <= t <= end_of_range end_date)%Z).
Proof.
  unfold within_days, date_of, end_of_range, Timestamp, Timedelta_days,
    Timedelta_seconds, microseconds_per_day, microseconds_per_second.
  split.
  - intros [H1 H2]. apply andb_true_intro. split; apply Z.leb_le.
    + apply Z.div_le_lower_bound; lia.
    + assert (t / (86400 * 1000000) < end_date + 1)%Z; [| lia].
      apply Z.div_lt_upper_bound; lia.
  - intros Hmod H. apply andb_prop in H. destruct H as [H1 H2].
    apply Z.leb_le in H1, H2.
    pose proof (Z.div_mod t (86400 * 1000000) ltac:(lia)) as Hdiv.
    pose proof (Z.mod_pos_bound t (86400 * 1000000) ltac:(lia)) as Hbound.
    pose proof (Z.div_mod t 1000000 ltac:(lia)) as Hsec.
    rewrite Hmod in Hsec. split; [nia |].
    assert (t < (end_date + 1) * (86400 * 1000000))%Z by nia.
    assert (t / 1000000 < (end_date + 1) * 86400)%Z by nia.
    nia.
Qed.

Lemma whole_seconds_range_witness :
  (Timestamp 0 <= 86399000000 <= end_of_range 0)%Z.
Proof.
  exact (proj2 (whole_seconds_range 0%Z 0%Z 86399000000%Z) eq_refl eq_refl).
Defined.

(** * Further properties of the code *)

(** ** The feed address *)

Lemma quote_plus_cons (c : ascii) (rest : string) :
  quote_plus (String c rest) = quote_character c +:+ quote_plus rest.
Proof. reflexivity. Qed.

Lemma quote_character_safe (c : ascii) :
  forallb url_character (list_ascii_of_string (quote_character c)) = true.
Proof. destruct c as [[] [] [] [] [] [] [] []]; reflexivity. Qed.

Lemma list_ascii_of_string_app (s1 s2 : string) :
  list_ascii_of_string (s1 +:+ s2) = list_ascii_of_string s1 ++ list_ascii_of_string s2.
Proof.
  induction s1 as [| c s1 IH]; simpl; [reflexivity | now rewrite IH].
Qed.

(** X2: a quoted keyword is made of letters, digits and the characters
    [_.-~+%] only, so no keyword can add a parameter to the feed address
    or end it early. *)
Theorem quote_plus_url_characters (keyword : string) :
  forallb url_character (list_ascii_of_string (quote_plus keyword)) = true.
Proof.
  induction keyword as [| c rest IH]; [reflexivity |].
  rewrite quote_plus_cons, list_ascii_of_string_app, forallb_app.
  now rewrite quote_character_safe, IH.
Qed.

Lemma unquote_quote_character (c : ascii) (rest : string) :
  unquote_plus (quote_character c +:+ rest) = String c (unquote_plus rest).
Proof. destruct c as [[] [] [] [] [] [] [] []]; reflexivity. Qed.

Lemma unquote_quote_plus (s : string) : unquote_plus (quote_plus s) = s.
Proof.
  induction s as [| c rest IH]; [reflexivity |].
  now rewrite quote_plus_cons, unquote_quote_character, IH.
Qed.

Lemma string_app_inv_tail (s1 s2 tail : string) :
  s1 +:+ tail = s2 +:+ tail -> s1 = s2.
Proof.
  intros H. apply (f_equal list_ascii_of_string) in H.
  rewrite !list_ascii_of_string_app in H. apply app_inv_tail in H.
  rewrite <- (string_of_list_ascii_of_string s1), <- (string_of_list_ascii_of_string s2).
  now rewrite H.
Qed.

(** X3: two different keywords never share a feed address. *)
Theorem rss_url_injective (keyword1 keyword2 : string) :
  keyword1 <> keyword2 -> rss_url keyword1 <> rss_url keyword2.
Proof.
  intros Hne Heq. apply Hne. unfold rss_url in Heq.
  simpl in Heq. injection Heq as Heq.
  change (quote_plus keyword1 +:+ "&hl=en-US&gl=US&ceid=US:en"
          = quote_plus keyword2 +:+ "&hl=en-US&gl=US&ceid=US:en") in Heq.
  apply string_app_inv_tail in Heq.
  now rewrite <- (unquote_quote_plus keyword1), <- (unquote_quote_plus keyword2), Heq.
Qed.

Lemma rss_url_injective_witness :
  rss_url "scope 3 emissions" <> rss_url "scope+3+emissions".
Proof.
  exact (rss_url_injective "scope 3 emissions" "scope+3+emissions"
           ltac:(discriminate)).
Defined.

(** ** The output of a collection run *)

Section CollectOutput.

Variable feedparser_parse : string -> Result Feed.
Variable date_parser_parse : string -> Result datetime.

#[local] Abbreviation failure_lines_of := (failure_lines feedparser_parse).

Lemma fetch_output (keyword : string) (ui : list Event) :
  exists articles,
    fetch_google_news_rss feedparser_parse date_parser_parse keyword ui
    = (Ok articles, ui ++ map st_error (failure_lines_of keyword)).
Proof.
  unfold failure_lines.
  destruct (feedparser_parse (rss_url keyword)) as [feed | e] eqn:H.
  - rewrite (fetch_ok _ _ _ _ ui H). simpl. rewrite app_nil_r. eauto.
  - rewrite (fetch_raise _ _ _ _ ui H). simpl. eauto.
Qed.

Lemma for_keywords_events (total : nat) (keywords : list string) :
  forall i all_articles ui,
    exists result,
      for_keywords feedparser_parse date_parser_parse total i keywords all_articles ui
      = (Ok result, ui ++ run_events feedparser_parse total i keywords).
Proof.
  induction keywords as [| keyword rest IH]; intros i acc ui.
  - exists acc. simpl. now rewrite app_nil_r.
  - simpl. unfold mbind, ST_bind, emit at 1.
    destruct (fetch_output keyword
                (ui ++ [status_text ("Fetching articles for: " +:+ keyword)]))
      as [articles ->].
    unfold emit.
    edestruct (IH (S i)) as [result ->]. exists result.
    rewrite <- !List.app_assoc. reflexivity.
Qed.

Lemma collect_appends (keywords : list string) (ui : list Event) :
  collect feedparser_parse date_parser_parse keywords ui
  = (Ok (deduplicated (all_fetched feedparser_parse date_parser_parse keywords)),
     ui ++ run_events feedparser_parse (length keywords) 0 keywords).
Proof.
  destruct (collect_returns feedparser_parse date_parser_parse keywords ui) as [ui' H].
  destruct (for_keywords_events (length keywords) keywords 0 [] ui) as [result Hrun].
  rewrite H. f_equal.
  unfold collect, mbind, ST_bind in H. rewrite Hrun in H.
  destruct (negb (df_empty (DataFrame_of result))); simpl in H.
  - unfold call in H. now injection H.
  - unfold mret, ST_ret in H. now injection H.
Qed.

Lemma run_events_last (total : nat) (keywords : list string) :
  forall i,
    keywords <> [] ->
    exists before,
      run_events feedparser_parse total i keywords
      = before ++ [progress (i + length keywords) total; sleep 1].
Proof.
  induction keywords as [| keyword rest IH]; intros i Hsome; [contradiction |].
  destruct rest as [| next rest].
  - exists ([status_text ("Fetching articles for: " +:+ keyword)]
            ++ map st_error (failure_lines_of keyword)).
    cbn [run_events length]. rewrite app_nil_r. unfold keyword_events.
    rewrite <- List.app_assoc. reflexivity.
  - destruct (IH (S i) ltac:(discriminate)) as [before Hbefore].
    exists (keyword_events feedparser_parse total i keyword ++ before).
    change (run_events feedparser_parse total i (keyword :: next :: rest))
      with (keyword_events feedparser_parse total i keyword
            ++ run_events feedparser_parse total (S i) (next :: rest)).
    rewrite Hbefore, List.app_assoc. f_equal. f_equal. f_equal. simpl. lia.
Qed.

(** X4: what a collection run writes on the page, event by event.  It
    only adds to the page, and it adds for each keyword in turn the status
    line, then the error line if the fetch raised, then the step of the
    progress bar, then a pause of one second; so the run pauses after
    every keyword, the last one included, and it ends with the progress
    bar full and a pause. *)
Theorem collect_output (keywords : list string) (ui : list Event) :
  exists df,
    collect feedparser_parse date_parser_parse keywords ui
    = (Ok df, ui ++ run_events feedparser_parse (length keywords) 0 keywords) /\
    (keywords <> [] ->
     exists before,
       run_events feedparser_parse (length keywords) 0 keywords
       = before ++ [progress (length keywords) (length keywords); sleep 1]).
Proof.
  eexists. split; [apply collect_appends |].
  intros Hsome.
  destruct (run_events_last (length keywords) keywords 0 Hsome) as [before ->].
  exists before. reflexivity.
Qed.

End CollectOutput.

(** ** The collected table *)

Lemma drop_duplicate_rows_urls (rs : list Row) :
  forall seen url,
    In url (map (fun r : Row => URL r) (drop_duplicate_rows seen rs))
    <-> In url (map (fun r : Row => URL r) rs) /\ ~ In url seen.
Proof.
  induction rs as [| x rs IH]; intros seen url; simpl.
  - tauto.
  - destruct (existsb (String.eqb (URL x)) seen) eqn:Hx.
    + apply existsb_eqb_In in Hx. rewrite IH. split.
      * tauto.
      * intros [[<- | H] Hn]; [contradiction | tauto].
    + apply existsb_eqb_not_In in Hx. simpl. rewrite IH. simpl. split.
      * intros [<- | [H Hn]]; [tauto |]. split; [tauto |]. tauto.
      * intros [[<- | H] Hn]; [tauto |].
        destruct (String.eqb_spec (URL x) url) as [-> | Hne]; [tauto |].
        right. split; [exact H |]. intros [He | Hs]; [congruence | tauto].
Qed.

Lemma drop_duplicate_rows_length (rs : list Row) :
  forall seen, length (drop_duplicate_rows seen rs) <= length rs.
Proof.
  induction rs as [| x rs IH]; intros seen; simpl; [lia |].
  destruct (existsb (String.eqb (URL x)) seen); simpl.
  - specialize (IH seen). lia.
  - specialize (IH (URL x :: seen)). lia.
Qed.

Lemma drop_duplicate_rows_compare (rs : list Row) :
  forall seen,
    Forall (fun r => Published_Date_Compare r = None) rs ->
    Forall (fun r => Published_Date_Compare r = None) (drop_duplicate_rows seen rs).
Proof.
  intros seen H. rewrite List.Forall_forall in *. intros r Hr.
  apply drop_duplicate_rows_In in Hr. now apply H.
Qed.

Lemma deduplicated_collected (a : Article) (rest : list Article) :
  collected (deduplicated (a :: rest)).
Proof.
  unfold collected, deduplicated. simpl. split; [reflexivity |].
  split; [discriminate |]. split.
  - apply (drop_duplicate_rows_NoDup (row_of_article a :: map row_of_article rest) []).
  - constructor; [reflexivity |]. apply drop_duplicate_rows_compare.
    apply List.Forall_forall. intros r Hr. apply in_map_iff in Hr.
    now destruct Hr as [a' [<- _]].
Qed.

Section CollectedTable.

Variable feedparser_parse : string -> Result Feed.
Variable date_parser_parse : string -> Result datetime.

#[local] Abbreviation fetched_for := (fetched feedparser_parse date_parser_parse).
#[local] Abbreviation all_fetched_for := (all_fetched feedparser_parse date_parser_parse).

Lemma fetched_keyword (keyword : string) :
  Forall (fun a => Keyword a = keyword) (fetched_for keyword).
Proof.
  destruct (feedparser_parse (rss_url keyword)) as [feed | e] eqn:H.
  - rewrite (fetched_ok _ _ _ _ H). apply List.Forall_forall. intros a Ha.
    apply in_map_iff in Ha. now destruct Ha as [entry [<- _]].
  - rewrite (fetched_raise _ _ _ _ H). constructor.
Qed.

Lemma all_fetched_keywords (keywords : list string) :
  Forall (fun a => In (Keyword a) keywords) (all_fetched_for keywords).
Proof.
  induction keywords as [| k ks IH]; [constructor |].
  rewrite all_fetched_cons. apply Forall_app. split.
  - eapply List.Forall_impl; [| apply fetched_keyword].
    simpl. intros a ->. now left.
  - eapply List.Forall_impl; [| exact IH]. simpl. intros a Ha. now right.
Qed.

(** X5: what a collection run returns.  When nothing was fetched it is
    the frame without columns and rows; otherwise it has the seven
    article columns, at least one row, and no helper cell filled.  Either
    way every fetched URL is in the table and no other, the table has at
    most as many rows as were fetched, and the keyword of every row is
    one of the keywords searched for. *)
Theorem collect_table_shape (keywords : list string) (ui : list Event) :
  exists df ui',
    collect feedparser_parse date_parser_parse keywords ui = (Ok df, ui') /\
    (all_fetched_for keywords = [] -> df = {| columns := []; rows := [] |}) /\
    (all_fetched_for keywords <> [] -> collected df) /\
    (forall url,
        In url (map (fun r : Row => URL r) (rows df))
        <-> In url (map URL (all_fetched_for keywords))) /\
    length (rows df) <= length (all_fetched_for keywords) /\
    Forall (fun r : Row => In (Keyword r) keywords) (rows df).
Proof.
  destruct (collect_returns feedparser_parse date_parser_parse keywords ui) as [ui' Hrun].
  eexists _, ui'. split; [exact Hrun |].
  pose proof (all_fetched_keywords keywords) as Hk.
  destruct (all_fetched_for keywords) as [| a rest] eqn:Hall.
  - split; [reflexivity |]. split; [congruence |]. simpl.
    split; [tauto |]. split; [lia | constructor].
  - split; [discriminate |]. split; [intros _; apply deduplicated_collected |].
    unfold deduplicated. cbn [rows]. split; [| split].
    + intros url. rewrite drop_duplicate_rows_urls, map_map. simpl. tauto.
    + etransitivity; [apply drop_duplicate_rows_length |]. now rewrite length_map.
    + apply List.Forall_forall. intros r Hr.
      apply drop_duplicate_rows_In in Hr. destruct Hr as [Hr _].
      apply in_map_iff in Hr. destruct Hr as [a' [<- Ha']].
      rewrite List.Forall_forall in Hk. now apply Hk.
Qed.

End CollectedTable.

(** ** Counts *)

Lemma total_count_insert_new (counts : gmap string nat) (k : string) (n : nat) :
  counts !! k = None -> total_count (<[k := n]> counts) = n + total_count counts.
Proof.
  intros H. unfold total_count. apply (map_fold_insert_L (fun _ n acc => n + acc)); [| exact H].
  intros. lia.
Qed.

Lemma total_count_insert (counts : gmap string nat) (k : string) (n : nat) :
  total_count (<[k := n]> counts) + default 0 (counts !! k) = n + total_count counts.
Proof.
  destruct (counts !! k) as [n0 |] eqn:H; simpl.
  - rewrite <- (insert_delete_eq counts k n).
    rewrite <- (insert_delete_id counts k n0 H) at 2.
    rewrite !total_count_insert_new by apply lookup_delete_eq. lia.
  - rewrite total_count_insert_new by exact H. lia.
Qed.

Lemma value_counts_total (xs : list string) :
  total_count (value_counts xs) = length xs.
Proof.
  induction xs as [| x rest IH]; simpl.
  - reflexivity.
  - pose proof (total_count_insert (value_counts rest) x
                  (S (default 0 (value_counts rest !! x)))) as H.
    lia.
Qed.

Lemma value_counts_lookup (xs : list string) (k : string) :
  value_counts xs !! k
  = if existsb (String.eqb k) xs then Some (count_occ string_dec xs k) else None.
Proof.
  induction xs as [| x rest IH]; simpl; [reflexivity |].
  rewrite lookup_insert. destruct (decide (x = k)) as [-> | Hne]; rewrite !IH.
  - rewrite String.eqb_refl. simpl.
    destruct (string_dec k k) as [_ | Hn]; [| contradiction].
    destruct (existsb (String.eqb k) rest) eqn:Hin; simpl; [reflexivity |].
    apply existsb_eqb_not_In in Hin. f_equal. f_equal. symmetry.
    now apply count_occ_not_In.
  - destruct (string_dec x k) as [He | _]; [contradiction |].
    destruct (String.eqb_spec k x) as [-> | _]; [contradiction |]. reflexivity.
Qed.

Lemma unique_from_length (xs : list string) :
  forall seen, length (unique_from seen xs) <= length xs.
Proof.
  induction xs as [| x rest IH]; intros seen; simpl; [lia |].
  destruct (existsb (String.eqb x) seen); simpl.
  - specialize (IH seen). lia.
  - specialize (IH (x :: seen)). lia.
Qed.

Lemma unique_from_In (xs : list string) :
  forall seen x, In x (unique_from seen xs) <-> In x xs /\ ~ In x seen.
Proof.
  induction xs as [| y rest IH]; intros seen x; simpl.
  - tauto.
  - destruct (existsb (String.eqb y) seen) eqn:Hy.
    + apply existsb_eqb_In in Hy. rewrite IH. split; [tauto |].
      intros [[<- | H] Hn]; [contradiction | tauto].
    + apply existsb_eqb_not_In in Hy. simpl. rewrite IH. simpl. split.
      * intros [<- | [H Hn]]; tauto.
      * intros [[<- | H] Hn]; [tauto |].
        destruct (String.eqb_spec y x) as [-> | Hne]; [tauto |].
        right. split; [exact H |]. intros [He | Hs]; [congruence | tauto].
Qed.

Lemma unique_from_NoDup (xs : list string) :
  forall seen, NoDup (unique_from seen xs).
Proof.
  induction xs as [| y rest IH]; intros seen; simpl; [constructor |].
  destruct (existsb (String.eqb y) seen); [apply IH |].
  constructor; [| apply IH].
  intros Hin. apply list_elem_of_In, unique_from_In in Hin.
  destruct Hin as [_ Hn]. apply Hn. now left.
Qed.

Lemma nunique_bounds (xs : list string) :
  xs <> [] -> 1 <= nunique xs <= length xs.
Proof.
  intros Hne. unfold nunique, unique. split; [| apply unique_from_length].
  destruct xs as [| x rest]; [contradiction |]. simpl. lia.
Qed.

(** ** The "Collect Feeds" tab *)

Lemma summarize_collected (df : DataFrame) :
  columns df = article_columns ->
  summarize df
  = (json_str ← to_json df;
     mret {| found := length (rows df);
             total_articles := length (rows df);
             keywords_searched := length KEYWORDS;
             unique_sources := nunique (map (fun r : Row => Source r) (rows df));
             keyword_counts := value_counts (map (fun r : Row => Keyword r) (rows df));
             recent_articles :=
               to_csv (df_head 20 {| columns := display_columns; rows := rows df |});
             download_csv := to_csv df;
             download_json := json_str |}).
Proof.
  destruct df as [labels rs]. simpl. intros ->. reflexivity.
Qed.

Lemma agree_insert_fresh (h : gmap ref DataFrame) (df : DataFrame) :
  agree h (<[fresh (dom h) := df]> h) /\ h !! fresh (dom h) = None.
Proof.
  assert (Hnew : h !! fresh (dom h) = None).
  { apply not_elem_of_dom. apply is_fresh. }
  split; [| exact Hnew].
  intros l d Hl. rewrite lookup_insert_ne; [exact Hl |]. intros <-. congruence.
Qed.

Section CollectTabProperties.

Variable feedparser_parse : string -> Result Feed.
Variable date_parser_parse : string -> Result datetime.

#[local] Abbreviation table :=
  (deduplicated (all_fetched feedparser_parse date_parser_parse KEYWORDS)).
#[local] Abbreviation tab := (collect_tab feedparser_parse date_parser_parse).

Lemma collect_all_feeds_run (ui : list Event) :
  exists new,
    collect_all_feeds feedparser_parse date_parser_parse ui = (Ok table, ui ++ new).
Proof.
  unfold collect_all_feeds. eexists. apply collect_appends.
Qed.

Lemma table_empty_iff :
  df_empty table = true <-> all_fetched feedparser_parse date_parser_parse KEYWORDS = [].
Proof.
  destruct (all_fetched feedparser_parse date_parser_parse KEYWORDS) as [| a rest].
  - split; reflexivity.
  - split; discriminate.
Qed.

Lemma table_collected :
  all_fetched feedparser_parse date_parser_parse KEYWORDS <> [] -> collected table.
Proof.
  destruct (all_fetched feedparser_parse date_parser_parse KEYWORDS) as [| a rest];
    [contradiction |].
  intros _. apply deduplicated_collected.
Qed.

Lemma collect_tab_stores (now : Z) (app : App) :
  all_fetched feedparser_parse date_parser_parse KEYWORDS <> [] ->
  exists new,
    tab true now app
    = (summary ← summarize table; mret (collection_complete summary),
       store_collection now table (page app ++ new) app).
Proof.
  intros Hsome. unfold collect_tab.
  destruct (collect_all_feeds_run (page app)) as [new ->]. exists new.
  destruct (df_empty table) eqn:Hempty; [apply table_empty_iff in Hempty; contradiction |].
  fold (store_collection now table (page app ++ new) app).
  now destruct (summarize table).
Qed.

Lemma store_collection_ok (now : Z) (df : DataFrame) (ui : list Event) (app : App) :
  collected df -> session_ok (store_collection now df ui app).
Proof.
  intros Hcol l Hl. cbn in Hl. rewrite lookup_insert_eq in Hl. injection Hl as <-.
  split.
  - exists df. split; [apply lookup_insert_eq | exact Hcol].
  - cbn [store_collection session times]. rewrite lookup_insert_eq. eauto.
Qed.

Lemma summarize_returns (df : DataFrame) :
  columns df = article_columns ->
  forallb in_bounds (present_dates (rows df)) = true ->
  exists summary,
    summarize df = Ok summary /\
    found summary = length (rows df) /\
    total_articles summary = length (rows df) /\
    unique_sources summary = nunique (map (fun r : Row => Source r) (rows df)) /\
    keyword_counts summary = value_counts (map (fun r : Row => Keyword r) (rows df)) /\
    recent_articles summary
    = to_csv (df_head 20 {| columns := display_columns; rows := rows df |}) /\
    download_csv summary = to_csv df /\
    download_json summary = json_records df.
Proof.
  intros Hcols Hdates. rewrite (summarize_collected df Hcols), (to_json_returns df Hdates).
  eexists. split; [reflexivity |]. cbn. tauto.
Qed.


(** X8: a collection that finds nothing shows the warning and writes
    nothing: the session keeps the table and the collection time of the
    last collection that found articles, and no frame object changes. *)
Theorem empty_collection_keeps_session (now : Z) (app : App) :
  all_fetched feedparser_parse date_parser_parse KEYWORDS = [] ->
  exists ui',
    tab true now app
    = (Ok no_articles_found,
       {| session := session app; objects := objects app; page := ui' |}).
Proof.
  intros Hnone. unfold collect_tab.
  destruct (collect_all_feeds_run (page app)) as [new ->].
  rewrite (proj2 table_empty_iff Hnone). eauto.
Qed.

Lemma keyword_counts_keys (k : string) (n : nat) :
  value_counts (map (fun r : Row => Keyword r) (rows table)) !! k = Some n ->
  In k KEYWORDS /\ 0 < n.
Proof.
  rewrite value_counts_lookup.
  destruct (existsb (String.eqb k) (map (fun r : Row => Keyword r) (rows table))) eqn:Hin;
    [| discriminate].
  intros [= <-]. apply existsb_eqb_In in Hin. split.
  - apply in_map_iff in Hin. destruct Hin as [r [<- Hr]].
    unfold deduplicated in Hr. cbn [rows] in Hr.
    apply drop_duplicate_rows_In in Hr. destruct Hr as [Hr _].
    apply in_map_iff in Hr. destruct Hr as [a [<- Ha]].
    pose proof (all_fetched_keywords feedparser_parse date_parser_parse KEYWORDS) as Hk.
    rewrite List.Forall_forall in Hk. now apply Hk.
  - now apply count_occ_In.
Qed.


End CollectTabProperties.

Lemma empty_collection_keeps_session_witness :
  exists ui',
    collect_tab service_down epoch_only true 0%Z fresh_app
    = (Ok no_articles_found,
       {| session := session fresh_app; objects := objects fresh_app; page := ui' |}).
Proof.
  exact (empty_collection_keeps_session service_down epoch_only 0%Z fresh_app eq_refl).
Defined.


(** ** How the filters combine *)

Lemma filter_map_article (m : Article -> bool) (rs : list Row) :
  map article (List.filter (fun r : Row => m r) rs) = List.filter m (map article rs).
Proof.
  induction rs as [| r rs IH]; simpl; [reflexivity |].
  destruct (m r); simpl; now rewrite IH.
Qed.

Lemma filter_and {A : Type} (p q : A -> bool) (l : list A) :
  List.filter q (List.filter p l) = List.filter (fun x => p x && q x) l.
Proof.
  induction l as [| x l IH]; simpl; [reflexivity |].
  destruct (p x); simpl; [destruct (q x) |]; now rewrite IH.
Qed.

Lemma date_mask_set_compare (start_date end_date : date) (r : Row) :
  date_mask (Timestamp start_date) (end_of_range end_date) (set_compare r)
  = date_ok start_date end_date r.
Proof.
  unfold date_mask, date_ok, isna. simpl. now destruct (Published_Date r).
Qed.

Lemma date_filter_articles (start_date end_date : date) (df df' : DataFrame) :
  has_column "Published_Date" df = true ->
  date_filter start_date end_date df = Ok df' ->
  map article (rows df')
  = List.filter (date_ok start_date end_date) (map article (rows df)).
Proof.
  intros Hcol Hrun. apply date_filter_cases in Hrun.
  destruct Hrun as [[Hno _] | [[_ [Hnone ->]] | [_ [_ [_ ->]]]]]; [congruence | |].
  - apply existsb_notna_false in Hnone. simpl.
    rewrite (filter_all _ _ Hnone). symmetry. apply filter_all.
    rewrite List.Forall_forall in *. intros a Ha. apply in_map_iff in Ha.
    destruct Ha as [r [<- Hr]]. specialize (Hnone r Hr).
    unfold isna in Hnone. unfold date_ok. now destruct (Published_Date r).
  - simpl. induction (rows df) as [| r rs IH]; simpl; [reflexivity |].
    change (Timestamp end_date + Timedelta_days 1 - Timedelta_seconds 1)%Z
      with (end_of_range end_date) in *.
    rewrite date_mask_set_compare. destruct (date_ok start_date end_date r); simpl;
      now rewrite IH.
Qed.

Lemma sublist_filter_self {A : Type} (p : A -> bool) (l : list A) :
  sublist (List.filter p l) l.
Proof.
  induction l as [| x l IH]; simpl; [constructor |].
  destruct (p x); [now apply sublist_skip | now apply sublist_cons].
Qed.

Lemma sublist_filter_weaker {A : Type} (p q : A -> bool) (l : list A) :
  (forall x, p x = true -> q x = true) ->
  sublist (List.filter p l) (List.filter q l).
Proof.
  intros Hpq. induction l as [| x l IH]; simpl; [constructor |].
  destruct (p x) eqn:Hp.
  - rewrite (Hpq x Hp). now apply sublist_skip.
  - destruct (q x); [now apply sublist_cons | exact IH].
Qed.

Lemma sublist_map {A B : Type} (f : A -> B) (l1 l2 : list A) :
  sublist l1 l2 -> sublist (map f l1) (map f l2).
Proof.
  induction 1; simpl; [constructor | now apply sublist_skip | now apply sublist_cons].
Qed.

Lemma map_article_set_compare (rs : list Row) :
  map article (map set_compare rs) = map article rs.
Proof. rewrite map_map. reflexivity. Qed.

Lemma date_filter_sublist (start_date end_date : date) (df df' : DataFrame) :
  date_filter start_date end_date df = Ok df' ->
  sublist (map article (rows df')) (map article (rows df)).
Proof.
  intros Hrun. apply date_filter_cases in Hrun.
  destruct Hrun as [[_ ->] | [[_ [_ ->]] | [_ [_ [_ ->]]]]]; simpl.
  - reflexivity.
  - apply sublist_map, sublist_filter_self.
  - rewrite <- (map_article_set_compare (rows df)).
    apply sublist_map, sublist_filter_self.
Qed.

Section FilterComposition.

Variable str_contains : string -> Result (string -> bool).

Lemma search_filter_articles (found : string -> bool) (term : string)
  (d d' : DataFrame) :
  (truthy term = true -> str_contains term = Ok found) ->
  search_filter str_contains term d = Ok d' ->
  map article (rows d') = List.filter (search_ok found term) (map article (rows d)).
Proof.
  intros Hfound. unfold search_filter, search_ok. destruct (truthy term); simpl.
  - rewrite (Hfound eq_refl). destruct (has_column "Title" d); [| discriminate].
    simpl. destruct (has_column "Description" d); [| discriminate].
    intros [= <-]. simpl.
    apply (filter_map_article (fun a => found (Title a) || found (Description a))).
  - intros [= <-]. symmetry. apply filter_all. now apply List.Forall_forall.
Qed.

Lemma keyword_filter_articles (selected : list string) (d d' : DataFrame) :
  keyword_filter selected d = Ok d' ->
  map article (rows d')
  = List.filter (fun a => selection_ok (Keyword a) selected) (map article (rows d)).
Proof.
  unfold keyword_filter, selection_ok. destruct selected as [| k ks].
  - intros [= <-]. symmetry. apply filter_all. now apply List.Forall_forall.
  - destruct (has_column "Keyword" d); [| discriminate]. intros [= <-]. simpl.
    apply (filter_map_article (fun a => isin (Keyword a) (k :: ks))).
Qed.

Lemma source_filter_articles (selected : list string) (d d' : DataFrame) :
  source_filter selected d = Ok d' ->
  map article (rows d')
  = List.filter (fun a => selection_ok (Source a) selected) (map article (rows d)).
Proof.
  unfold source_filter, selection_ok. destruct selected as [| k ks].
  - intros [= <-]. symmetry. apply filter_all. now apply List.Forall_forall.
  - destruct (has_column "Source" d); [| discriminate]. intros [= <-]. simpl.
    apply (filter_map_article (fun a => isin (Source a) (k :: ks))).
Qed.

Lemma apply_filters_articles (found : string -> bool) (c : Criteria)
  (df df' : DataFrame) :
  has_column "Published_Date" df = true ->
  (truthy (search_term c) = true -> str_contains (search_term c) = Ok found) ->
  apply_filters str_contains c df = Ok df' ->
  map article (rows df') = List.filter (passes found c) (map article (rows df)).
Proof.
  intros Hcol Hfound H. unfold apply_filters in H.
  destruct (date_filter (start_date c) (end_date c) df) as [d1 | ?] eqn:H1;
    simpl in H; [| discriminate].
  destruct (search_filter str_contains (search_term c) d1) as [d2 | ?] eqn:H2;
    simpl in H; [| discriminate].
  destruct (keyword_filter (selected_keywords c) d2) as [d3 | ?] eqn:H3;
    simpl in H; [| discriminate].
  rewrite (source_filter_articles _ _ _ H), (keyword_filter_articles _ _ _ H3),
    (search_filter_articles found _ _ _ Hfound H2), (date_filter_articles _ _ _ _ Hcol H1).
  rewrite !filter_and. apply filter_ext. intros a. unfold passes.
  now rewrite !andb_assoc.
Qed.

(** X14: the four filters in a row keep exactly the records that pass
    every criterion at once, in the order of the table: undated or inside
    the date range, found by the search text when there is one, of a
    selected keyword when any is selected, and of a selected source when
    any is selected. *)
Theorem filters_combine (found : string -> bool) (c : Criteria) (df df' : DataFrame) :
  has_column "Published_Date" df = true ->
  (truthy (search_term c) = true -> str_contains (search_term c) = Ok found) ->
  apply_filters str_contains c df = Ok df' ->
  map article (rows df') = List.filter (passes found c) (map article (rows df)).
Proof. apply apply_filters_articles. Qed.

Lemma apply_filters_sublist (c : Criteria) (df df' : DataFrame) :
  apply_filters str_contains c df = Ok df' ->
  sublist (map article (rows df')) (map article (rows df)) /\
  length (rows df') <= length (rows df) /\
  (NoDup (map (fun r : Row => URL r) (rows df)) ->
   NoDup (map (fun r : Row => URL r) (rows df'))).
Proof.
  intros H. unfold apply_filters in H.
  destruct (date_filter (start_date c) (end_date c) df) as [d1 | ?] eqn:H1;
    simpl in H; [| discriminate].
  destruct (search_filter str_contains (search_term c) d1) as [d2 | ?] eqn:H2;
    simpl in H; [| discriminate].
  destruct (keyword_filter (selected_keywords c) d2) as [d3 | ?] eqn:H3;
    simpl in H; [| discriminate].
  apply date_filter_sublist in H1.
  apply search_filter_selection in H2. destruct H2 as [m2 [-> _]].
  apply keyword_filter_selection in H3. destruct H3 as [m3 [-> _]].
  apply source_filter_selection in H. destruct H as [m4 [-> _]].
  assert (Hsub : sublist (map article (rows (boolean_index m4 (boolean_index m3
                            (boolean_index m2 d1)))))
                         (map article (rows df))).
  { etransitivity; [| exact H1]. simpl. apply sublist_map.
    etransitivity; [apply sublist_filter_self |].
    etransitivity; apply sublist_filter_self. }
  split; [exact Hsub |]. split.
  - apply sublist_length in Hsub. now rewrite !length_map in Hsub.
  - intros Hnodup. apply (sublist_map URL) in Hsub. rewrite !map_map in Hsub.
    exact (sublist_NoDup _ _ Hnodup Hsub).
Qed.

(** X15: the filters invent nothing and reorder nothing: the records of
    the result are records of the table in the order of the table, so the
    result is never longer than the table, and a table without repeated
    URLs gives a result without repeated URLs. *)
Theorem filters_keep_order (c : Criteria) (df df' : DataFrame) :
  apply_filters str_contains c df = Ok df' ->
  sublist (map article (rows df')) (map article (rows df)) /\
  length (rows df') <= length (rows df) /\
  (NoDup (map (fun r : Row => URL r) (rows df)) ->
   NoDup (map (fun r : Row => URL r) (rows df'))).
Proof. apply apply_filters_sublist. Qed.

End FilterComposition.

(** ** Wider ranges and the errors of the filters *)

Lemma date_ok_wider (s e s' e' : date) (a : Article) :
  (s' <= s)%Z -> (e <= e')%Z ->
  date_ok s e a = true -> date_ok s' e' a = true.
Proof.
  intros Hs He. unfold date_ok, end_of_range, Timestamp, Timedelta_days,
    Timedelta_seconds, microseconds_per_day, microseconds_per_second.
  destruct (Published_Date a) as [d |]; [| reflexivity].
  intros H. apply andb_prop in H. destruct H as [H1 H2].
  apply Z.leb_le in H1, H2. apply andb_true_intro. split; apply Z.leb_le; lia.
Qed.

Lemma date_filter_returns_for_any_range (s e s' e' : date) (df d : DataFrame) :
  date_filter s e df = Ok d -> exists d', date_filter s' e' df = Ok d'.
Proof.
  unfold date_filter, assign_compare_column.
  destruct (has_column "Published_Date" df); [| eauto].
  destruct (existsb notna (rows df)); [| eauto].
  destruct (datetime_column (rows df)); simpl; [eauto | discriminate].
Qed.

Lemma date_filter_wider (s e s' e' : date) (df narrow : DataFrame) :
  (s' <= s)%Z -> (e <= e')%Z ->
  date_filter s e df = Ok narrow ->
  exists wide,
    date_filter s' e' df = Ok wide /\
    sublist (map article (rows narrow)) (map article (rows wide)).
Proof.
  intros Hs He Hnarrow.
  destruct (date_filter_returns_for_any_range s e s' e' df narrow Hnarrow) as [wide Hwide].
  exists wide. split; [exact Hwide |].
  destruct (has_column "Published_Date" df) eqn:Hcol.
  - rewrite (date_filter_articles _ _ _ _ Hcol Hnarrow),
      (date_filter_articles _ _ _ _ Hcol Hwide).
    apply sublist_filter_weaker. intros a. now apply date_ok_wider.
  - unfold date_filter in Hnarrow, Hwide. rewrite Hcol in Hnarrow, Hwide.
    injection Hnarrow as <-. injection Hwide as <-. reflexivity.
Qed.

(** X12: widening the date range never loses a record: what a range keeps
    is kept, in the same order, by every range that starts no later and
    ends no earlier, and the wider filter returns whenever the narrower
    one does. *)
Theorem wider_range_keeps_more (s e s' e' : date) (df narrow : DataFrame) :
  (s' <= s)%Z -> (e <= e')%Z ->
  date_filter s e df = Ok narrow ->
  exists wide,
    date_filter s' e' df = Ok wide /\
    sublist (map article (rows narrow)) (map article (rows wide)).
Proof. apply date_filter_wider. Qed.

Lemma wider_range_keeps_more_witness :
  exists wide,
    date_filter 0%Z 1%Z two_records = Ok wide /\
    sublist (map article (rows {| columns := article_columns ++ [compare_column];
                                  rows := [set_compare (row_of_article (article_at "u2" None))] |}))
            (map article (rows wide)).
Proof.
  exact (wider_range_keeps_more 0%Z 0%Z 0%Z 1%Z two_records _
           ltac:(lia) ltac:(lia) eq_refl).
Defined.

Lemma has_column_extended (label extra : string) (df : DataFrame) :
  has_column label df = true ->
  existsb (String.eqb label)
    (if has_column extra df then columns df else columns df ++ [extra]) = true.
Proof.
  intros H. destruct (has_column extra df); [exact H |].
  rewrite existsb_app. unfold has_column in H. now rewrite H.
Qed.

Lemma date_filter_has_column (label : string) (s e : date) (df d1 : DataFrame) :
  has_column label df = true ->
  date_filter s e df = Ok d1 ->
  has_column label d1 = true.
Proof.
  intros Hlabel Hrun. apply date_filter_cases in Hrun.
  destruct Hrun as [[_ ->] | [[_ [_ ->]] | [_ [_ [_ ->]]]]]; try exact Hlabel.
  unfold has_column at 1, boolean_index. cbn [columns].
  now apply has_column_extended.
Qed.

Section FilterErrors.

Variable str_contains : string -> Result (string -> bool).

Lemma apply_filters_outcome (c : Criteria) (df : DataFrame) :
  forallb (fun label => has_column label df) article_columns = true ->
  match apply_filters str_contains c df with
  | Ok _ =>
      (existsb notna (rows df) = false \/ datetime_column (rows df) = true) /\
      (truthy (search_term c) = false
       \/ exists found, str_contains (search_term c) = Ok found)
  | Raise e =>
      (existsb notna (rows df) = true /\ datetime_column (rows df) = false /\
       e = to_datetime_error (rows df))
      \/ ((existsb notna (rows df) = false \/ datetime_column (rows df) = true) /\
          truthy (search_term c) = true /\
          str_contains (search_term c) = Raise e)
  end.
Proof.
  intros Hcols. unfold article_columns in Hcols. cbn [forallb] in Hcols.
  apply andb_prop in Hcols as [Hkeyword Hcols].
  apply andb_prop in Hcols as [Htitle Hcols].
  apply andb_prop in Hcols as [_ Hcols].
  apply andb_prop in Hcols as [_ Hcols].
  apply andb_prop in Hcols as [Hdate Hcols].
  apply andb_prop in Hcols as [Hsource Hcols].
  apply andb_prop in Hcols as [Hdescription _].
  unfold apply_filters.
  destruct (date_filter (start_date c) (end_date c) df) as [d1 | e1] eqn:Hrun;
    cbn [mbind Result_bind].
  - assert (Hzone : existsb notna (rows df) = false \/ datetime_column (rows df) = true).
    { apply date_filter_cases in Hrun.
      destruct Hrun as [[Hno _] | [[_ [Hn _]] | [_ [_ [Hz _]]]]];
        [congruence | auto | auto]. }
    pose proof (fun l Hl => date_filter_has_column l _ _ _ _ Hl Hrun) as Hkeep.
    assert (Hlater : forall d2,
               columns d2 = columns d1 ->
               exists d4,
                 keyword_filter (selected_keywords c) d2
                 ≫= source_filter (selected_sources c) = Ok d4).
    { intros d2 Hsame. unfold keyword_filter, source_filter.
      destruct (selected_keywords c) as [| k ks].
      - cbn [mbind Result_bind mret Result_ret].
        destruct (selected_sources c) as [| x xs]; [eauto |].
        rewrite (has_column_same _ _ _ Hsame), (Hkeep "Source" Hsource). eauto.
      - rewrite (has_column_same _ _ _ Hsame), (Hkeep "Keyword" Hkeyword).
        cbn [mbind Result_bind mret Result_ret].
        destruct (selected_sources c) as [| x xs]; [eauto |].
        unfold has_column at 1, boolean_index. cbn [columns].
        fold (has_column "Source" d2).
        rewrite (has_column_same _ _ _ Hsame), (Hkeep "Source" Hsource). eauto. }
    unfold search_filter.
    destruct (truthy (search_term c)) eqn:Hterm.
    + rewrite (Hkeep "Title" Htitle).
      destruct (str_contains (search_term c)) as [found | e2] eqn:Hc;
        cbn [mbind Result_bind]; [| auto].
      rewrite (Hkeep "Description" Hdescription).
      cbn [mbind Result_bind mret Result_ret].
      edestruct Hlater as [d4 ->]; [reflexivity |]. eauto.
    + cbn [mbind Result_bind mret Result_ret].
      edestruct Hlater as [d4 ->]; [reflexivity |]. auto.
  - left. unfold date_filter, assign_compare_column in Hrun.
    rewrite Hdate in Hrun.
    destruct (existsb notna (rows df)); [| discriminate].
    destruct (datetime_column (rows df)); simpl in Hrun; [discriminate |].
    injection Hrun as <-. auto.
Qed.

Lemma apply_filters_returns (c : Criteria) (df : DataFrame) :
  forallb (fun label => has_column label df) article_columns = true ->
  datetime_column (rows df) = true ->
  (truthy (search_term c) = true -> exists found, str_contains (search_term c) = Ok found) ->
  exists df', apply_filters str_contains c df = Ok df'.
Proof.
  intros Hcols Hzone Hterm. pose proof (apply_filters_outcome c df Hcols) as H.
  destruct (apply_filters str_contains c df) as [df' | e]; [eauto |].
  destruct H as [[_ [Hz _]] | [_ [Ht Hc]]]; [congruence |].
  destruct (Hterm Ht) as [found Hf]. congruence.
Qed.


End FilterErrors.


Lemma filters_combine_witness :
  map article (rows two_records_compared)
  = List.filter
      (passes (re_search (map literal (list_ascii_of_string "SCOPE"))) scope_in_two_days)
      (map article (rows two_records)).
Proof.
  exact (filters_combine simple_engine
           (re_search (map literal (list_ascii_of_string "SCOPE")))
           scope_in_two_days two_records two_records_compared
           eq_refl (fun _ => eq_refl) eq_refl).
Defined.

Lemma filters_keep_order_witness :
  sublist (map article (rows two_records_compared)) (map article (rows two_records)) /\
  length (rows two_records_compared) <= length (rows two_records) /\
  (NoDup (map (fun r : Row => URL r) (rows two_records)) ->
   NoDup (map (fun r : Row => URL r) (rows two_records_compared))).
Proof.
  exact (filters_keep_order simple_engine scope_in_two_days two_records
           two_records_compared eq_refl).
Defined.

(** ** The quick filters *)

Lemma date_of_days_before (t n : Z) :
  date_of (t - Timedelta_days n) = (date_of t - n)%Z.
Proof.
  unfold date_of, Timedelta_days.
  replace (t - n * microseconds_per_day)%Z with (t + (- n) * microseconds_per_day)%Z by lia.
  rewrite Z.div_add by (unfold microseconds_per_day, microseconds_per_second; lia).
  lia.
Qed.

Lemma date_of_monotone (t1 t2 : Z) : (t1 <= t2)%Z -> (date_of t1 <= date_of t2)%Z.
Proof.
  intros H. unfold date_of. apply Z.div_le_mono; [| exact H].
  unfold microseconds_per_day, microseconds_per_second. lia.
Qed.

(** X19: the quick filters of one run.  "Today" runs from the day of the
    first reading of the clock to the day of the second; "Last 7 days" and
    "Last 30 days" start exactly 7 and 30 days before "Today" starts and
    end where it ends; "All time" on a table with parsed dates gives the
    bounds the date pickers start with.  So the ranges nest: what "Today"
    keeps "Last 7 days" keeps, and what "Last 7 days" keeps "Last 30 days"
    keeps, in the same order. *)
Theorem quick_filters_nest (clock : Clock) (df : DataFrame) (s e : date) :
  (now_start clock <= now_end clock)%Z ->
  exists today week month,
    apply_quick_filter clock (Some "today") df s e = Ok today /\
    apply_quick_filter clock (Some "7days") df s e = Ok week /\
    apply_quick_filter clock (Some "30days") df s e = Ok month /\
    today.1 = date_of (now_start clock) /\
    today.2 = date_of (now_end clock) /\
    (today.1 <= today.2)%Z /\
    week = ((today.1 - 7)%Z, today.2) /\
    month = ((today.1 - 30)%Z, today.2) /\
    (forall bounds,
        present_dates (rows df) <> [] ->
        date_bounds clock df = Ok bounds ->
        apply_quick_filter clock (Some "all") df s e = Ok bounds) /\
    (forall kept,
        date_filter today.1 today.2 df = Ok kept ->
        exists kept7 kept30,
          date_filter week.1 week.2 df = Ok kept7 /\
          date_filter month.1 month.2 df = Ok kept30 /\
          sublist (map article (rows kept)) (map article (rows kept7)) /\
          sublist (map article (rows kept7)) (map article (rows kept30))).
Proof.
  intros Hclock. eexists _, _, _.
  split; [reflexivity |]. split; [reflexivity |]. split; [reflexivity |].
  cbn [fst snd]. rewrite !date_of_days_before.
  split; [reflexivity |]. split; [reflexivity |].
  split; [now apply date_of_monotone |].
  split; [reflexivity |]. split; [reflexivity |]. split.
  - intros bounds Hdates Hbounds. unfold date_bounds in Hbounds.
    unfold apply_quick_filter. cbn [is_quick String.eqb Ascii.eqb Bool.eqb].
    destruct (has_column "Published_Date" df); [| discriminate].
    destruct (present_dates (rows df)); [contradiction | exact Hbounds].
  - intros kept Hkept.
    destruct (date_filter_wider (date_of (now_start clock)) (date_of (now_end clock))
                (date_of (now_start clock) - 7)%Z (date_of (now_end clock))
                df kept ltac:(lia) ltac:(lia) Hkept)
      as [kept7 [H7 Hsub7]].
    destruct (date_filter_wider (date_of (now_start clock) - 7)%Z
                (date_of (now_end clock))
                (date_of (now_start clock) - 30)%Z (date_of (now_end clock))
                df kept7 ltac:(lia) ltac:(lia) H7)
      as [kept30 [H30 Hsub30]].
    exists kept7, kept30. auto.
Qed.

Lemma quick_filters_nest_witness :
  exists today week month,
    apply_quick_filter noon_of_day_10 (Some "today") two_records 0%Z 0%Z = Ok today /\
    apply_quick_filter noon_of_day_10 (Some "7days") two_records 0%Z 0%Z = Ok week /\
    apply_quick_filter noon_of_day_10 (Some "30days") two_records 0%Z 0%Z = Ok month /\
    today.1 = date_of (now_start noon_of_day_10) /\
    today.2 = date_of (now_end noon_of_day_10) /\
    (today.1 <= today.2)%Z /\
    week = ((today.1 - 7)%Z, today.2) /\
    month = ((today.1 - 30)%Z, today.2) /\
    (forall bounds,
        present_dates (rows two_records) <> [] ->
        date_bounds noon_of_day_10 two_records = Ok bounds ->
        apply_quick_filter noon_of_day_10 (Some "all") two_records 0%Z 0%Z = Ok bounds) /\
    (forall kept,
        date_filter today.1 today.2 two_records = Ok kept ->
        exists kept7 kept30,
          date_filter week.1 week.2 two_records = Ok kept7 /\
          date_filter month.1 month.2 two_records = Ok kept30 /\
          sublist (map article (rows kept)) (map article (rows kept7)) /\
          sublist (map article (rows kept7)) (map article (rows kept30))).
Proof.
  exact (quick_filters_nest noon_of_day_10 two_records 0%Z 0%Z ltac:(reflexivity)).
Defined.

(** ** The search tab with its widgets untouched *)

Lemma minimum_le (t : Z) (ts : list Z) (x : Z) :
  In x (t :: ts) -> (minimum t ts <= x)%Z.
Proof.
  unfold minimum. induction ts as [| y ts IH]; simpl.
  - intros [<- | []]. lia.
  - intros [<- | [<- | H]].
    + assert (foldr Z.min t ts <= t)%Z by (apply IH; now left). lia.
    + lia.
    + assert (foldr Z.min t ts <= x)%Z by (apply IH; now right). lia.
Qed.

Lemma maximum_ge (t : Z) (ts : list Z) (x : Z) :
  In x (t :: ts) -> (x <= maximum t ts)%Z.
Proof.
  unfold maximum. induction ts as [| y ts IH]; simpl.
  - intros [<- | []]. lia.
  - intros [<- | [<- | H]].
    + assert (t <= foldr Z.max t ts)%Z by (apply IH; now left). lia.
    + lia.
    + assert (x <= foldr Z.max t ts)%Z by (apply IH; now right). lia.
Qed.

Lemma maximum_In (t : Z) (ts : list Z) : In (maximum t ts) (t :: ts).
Proof.
  unfold maximum. induction ts as [| y ts IH]; simpl; [now left |].
  destruct (Z.max_spec y (foldr Z.max t ts)) as [[_ ->] | [_ ->]].
  - simpl in IH. tauto.
  - tauto.
Qed.

Lemma Timestamp_date_of (t : Z) : (Timestamp (date_of t) <= t)%Z.
Proof.
  unfold Timestamp, date_of.
  pose proof (Z.mul_div_le t microseconds_per_day
                ltac:(unfold microseconds_per_day, microseconds_per_second; lia)).
  lia.
Qed.

Lemma filter_eq_all {A : Type} (p : A -> bool) (l : list A) :
  List.filter p l = l <-> Forall (fun x => p x = true) l.
Proof.
  split; [| apply filter_all].
  induction l as [| x l IH]; simpl; [constructor |].
  destruct (p x) eqn:Hp.
  - intros [= H]. constructor; [exact Hp | now apply IH].
  - intros H. pose proof (filter_length_le p l) as Hlen.
    rewrite H in Hlen. simpl in Hlen. lia.
Qed.

Lemma existsb_notna_present (rs : list Row) :
  existsb notna rs = true <-> present_dates rs <> [].
Proof.
  induction rs as [| r rs IH]; simpl; [split; [discriminate | congruence] |].
  unfold notna at 1, isna. destruct (Published_Date r); simpl.
  - split; [discriminate | reflexivity].
  - exact IH.
Qed.

Lemma unique_covers (xs : list string) (x : string) :
  In x xs -> selection_ok x (unique xs) = true.
Proof.
  intros H. unfold selection_ok.
  destruct (unique xs) as [| k ks] eqn:Hu; [reflexivity |].
  unfold isin. apply existsb_eqb_In. rewrite <- Hu. unfold unique.
  apply unique_from_In. split; [exact H | intros []].
Qed.

Section DefaultView.

Variable str_contains : string -> Result (string -> bool).

Lemma criteria_of_untouched (clock : Clock) (df : DataFrame) (bounds : date * date) :
  has_column "Keyword" df = true ->
  has_column "Source" df = true ->
  date_bounds clock df = Ok bounds ->
  criteria_of clock untouched df
  = Ok {| search_term := "";
          start_date := bounds.1;
          end_date := bounds.2;
          selected_keywords := unique (map (fun r : Row => Keyword r) (rows df));
          selected_sources := [] |}.
Proof.
  intros Hk Hs Hb. unfold criteria_of, column_Keyword, column_Source.
  rewrite Hb, Hk, Hs. reflexivity.
Qed.


End DefaultView.


(** ** The whole search tab *)

Lemma collected_has_columns (df : DataFrame) :
  collected df -> forallb (fun label => has_column label df) article_columns = true.
Proof.
  intros [Hcols _]. destruct df as [labels rs]. simpl in Hcols. subst labels.
  reflexivity.
Qed.

Lemma criteria_of_returns (clock : Clock) (inputs : Inputs) (df : DataFrame) :
  forallb (fun label => has_column label df) article_columns = true ->
  existsb notna (rows df) = false \/ datetime_column (rows df) = true ->
  exists c, criteria_of clock inputs df = Ok c.
Proof.
  intros Hcols Hdates. unfold article_columns in Hcols. cbn [forallb] in Hcols.
  apply andb_prop in Hcols as [Hkeyword Hcols].
  apply andb_prop in Hcols as [_ Hcols].
  apply andb_prop in Hcols as [_ Hcols].
  apply andb_prop in Hcols as [_ Hcols].
  apply andb_prop in Hcols as [Hdate Hcols].
  apply andb_prop in Hcols as [Hsource _].
  unfold criteria_of, date_bounds, apply_quick_filter, data_bounds,
    column_Keyword, column_Source.
  rewrite Hdate, Hkeyword, Hsource.
  destruct (present_dates (rows df)) as [| d ds] eqn:Hpresent.
  - cbn [mbind Result_bind mret Result_ret].
    repeat match goal with
           | |- context [if ?b then _ else _] => destruct b
           end;
      cbn [mbind Result_bind mret Result_ret]; eauto.
  - assert (Hcolumn : datetime_column (rows df) = true).
    { destruct Hdates as [Hnone | Hcolumn]; [| exact Hcolumn].
      assert (Hsome : existsb notna (rows df) = true)
        by (apply existsb_notna_present; now rewrite Hpresent).
      congruence. }
    rewrite Hcolumn. cbn [mbind Result_bind mret Result_ret].
    repeat match goal with
           | |- context [if ?b then _ else _] => destruct b
           end;
      cbn [mbind Result_bind mret Result_ret]; eauto.
Qed.

Lemma criteria_of_raise (clock : Clock) (inputs : Inputs) (df : DataFrame) (e : exn) :
  forallb (fun label => has_column label df) article_columns = true ->
  criteria_of clock inputs df = Raise e ->
  existsb notna (rows df) = true /\ datetime_column (rows df) = false.
Proof.
  intros Hcols Hrun.
  destruct (existsb notna (rows df)) eqn:Hany, (datetime_column (rows df)) eqn:Hcolumn;
    try (split; reflexivity);
    (destruct (criteria_of_returns clock inputs df Hcols) as [c Hc];
     [rewrite ?Hany, ?Hcolumn; auto | congruence]).
Qed.

Lemma criteria_of_search_term (clock : Clock) (inputs : Inputs) (df : DataFrame)
  (c : Criteria) :
  criteria_of clock inputs df = Ok c -> search_term c = search_input inputs.
Proof.
  unfold criteria_of.
  destruct (date_bounds clock df) as [bounds |]; [| discriminate].
  cbn [mbind Result_bind].
  destruct (apply_quick_filter clock (quick_filter inputs) df
              (get (from_date inputs) bounds.1) (get (to_date inputs) bounds.2))
    as [range |]; [| discriminate].
  cbn [mbind Result_bind].
  destruct (column_Keyword df); [| discriminate]. cbn [mbind Result_bind].
  destruct (column_Source df); [| discriminate]. cbn [mbind Result_bind mret Result_ret].
  now intros [= <-].
Qed.

Lemma criteria_of_datetime_column (clock : Clock) (inputs : Inputs) (df : DataFrame)
  (c : Criteria) :
  criteria_of clock inputs df = Ok c ->
  existsb notna (rows df) = false \/ datetime_column (rows df) = true.
Proof.
  unfold criteria_of, date_bounds, data_bounds.
  destruct (has_column "Published_Date" df); [| discriminate].
  destruct (present_dates (rows df)) as [| d ds] eqn:Hdates.
  - intros _. left. destruct (existsb notna (rows df)) eqn:H; [| reflexivity].
    apply existsb_notna_present in H. contradiction.
  - destruct (datetime_column (rows df)); [auto | discriminate].
Qed.

Lemma results_view_shown (v : DataFrame) :
  forallb (fun label => has_column label v) display_columns = true ->
  results_view v
  = Ok (results (length (rows v))
          (if (0 <? length (rows v))%nat
           then Some (to_csv {| columns := display_columns; rows := rows v |}, to_csv v)
           else None)).
Proof.
  intros H. unfold results_view, select_columns.
  destruct (0 <? length (rows v))%nat; [| reflexivity].
  unfold display_columns in *. cbn [forallb first_missing] in *.
  repeat (apply andb_prop in H; destruct H as [-> H]). reflexivity.
Qed.

Section SearchTabSound.

Variable str_contains : string -> Result (string -> bool).

Lemma apply_filters_has_column (label : string) (c : Criteria) (df df' : DataFrame) :
  has_column label df = true ->
  apply_filters str_contains c df = Ok df' ->
  has_column label df' = true.
Proof.
  intros Hlabel H. unfold apply_filters in H.
  destruct (date_filter (start_date c) (end_date c) df) as [d1 | ?] eqn:H1;
    simpl in H; [| discriminate].
  destruct (search_filter str_contains (search_term c) d1) as [d2 | ?] eqn:H2;
    simpl in H; [| discriminate].
  destruct (keyword_filter (selected_keywords c) d2) as [d3 | ?] eqn:H3;
    simpl in H; [| discriminate].
  apply search_filter_selection in H2. destruct H2 as [m2 [-> _]].
  apply keyword_filter_selection in H3. destruct H3 as [m3 [-> _]].
  apply source_filter_selection in H. destruct H as [m4 [-> _]].
  exact (date_filter_has_column label _ _ _ _ Hlabel H1).
Qed.

Lemma search_tab_outcome (clock : Clock) (inputs : Inputs) (app : App) :
  session_ok app ->
  agree (objects app)
    (search_tab str_contains clock inputs (session app) (objects app)).2 /\
  session_ok
    {| session := session app;
       objects := (search_tab str_contains clock inputs (session app) (objects app)).2;
       page := page app |} /\
  match (search_tab str_contains clock inputs (session app) (objects app)).1 with
  | Ok please_collect => frames (session app) !! "articles_df" = None
  | Ok (results count shown) =>
      exists l table c df',
        frames (session app) !! "articles_df" = Some l /\
        objects app !! l = Some table /\
        criteria_of clock inputs table = Ok c /\
        apply_filters str_contains c table = Ok df' /\
        count = length (rows df') /\
        match shown with
        | None => count = 0
        | Some (display, csv) =>
            0 < count /\
            header display = display_columns /\
            length (records display) = count /\
            csv = to_csv df'
        end
  | Raise e =>
      exists l table,
        frames (session app) !! "articles_df" = Some l /\
        objects app !! l = Some table /\
        ((existsb notna (rows table) = true /\ datetime_column (rows table) = false)
         \/ (truthy (search_input inputs) = true /\
             str_contains (search_input inputs) = Raise e))
  end.
Proof.
  intros Hok.
  assert (Hkeep : forall h, agree (objects app) h ->
            session_ok {| session := session app; objects := h; page := page app |}).
  { intros h Hagree l Hl. destruct (Hok l Hl) as [[df [Hdf Hcollected]] Htime].
    split; [| exact Htime]. exists df. split; [now apply Hagree | exact Hcollected]. }
  match goal with
  | |- ?A /\ _ /\ ?C => cut (A /\ C); [intros [HA HC]; auto |]
  end.
  unfold search_tab.
  destruct (frames (session app) !! "articles_df") as [l |] eqn:Hl.
  2: { split; [apply agree_refl | reflexivity]. }
  destruct (Hok l Hl) as [[table [Htable Hcollected]] [t Ht]]. rewrite Ht.
  pose proof (collected_has_columns table Hcollected) as Hcols.
  rewrite (bind_read _ _ _ _ Htable).
  destruct (criteria_of clock inputs table) as [c | e] eqn:Hc.
  2: { rewrite bind_call_raise. split; [apply agree_refl |].
       exists l, table. split; [reflexivity |]. split; [exact Htable |]. left.
       exact (criteria_of_raise _ _ _ _ Hcols Hc). }
  rewrite bind_call_ok.
  match goal with
  | |- agree _ (snd ?run) /\ _ =>
      assert (Hout : outcome (objects app) run
                (fun view _ =>
                   match view with
                   | please_collect => False
                   | results count shown =>
                       exists df',
                         apply_filters str_contains c table = Ok df' /\
                         count = length (rows df') /\
                         match shown with
                         | None => count = 0
                         | Some (display, csv) =>
                             0 < count /\
                             header display = display_columns /\
                             length (records display) = count /\
                             csv = to_csv df'
                         end
                   end)
                (fun e =>
                   (existsb notna (rows table) = true /\
                    datetime_column (rows table) = false)
                   \/ (truthy (search_input inputs) = true /\
                       str_contains (search_input inputs) = Raise e)));
      [| destruct Hout as [Hagree Hres]; split; [exact Hagree |];
         destruct (fst run) as [[| count shown] | e];
         [ contradiction
         | destruct Hres as [df' Hres]; exists l, table, c, df'; tauto
         | exists l, table; tauto ] ]
  end.
  eapply outcome_bind.
  { exact (search_and_filter_tab_outcome str_contains _ c _ l table Hl Htable). }
  { intros e He. pose proof (apply_filters_outcome str_contains c table Hcols) as Hout.
    rewrite He in Hout. destruct Hout as [[Hany [Hcolumn _]] | [_ [Hterm Hraise]]];
      [now left |].
    right. now rewrite <- (criteria_of_search_term _ _ _ _ Hc). }
  intros r h1 Hagree [filtered_df [v [-> [Hv [Hlookup _]]]]].
  rewrite (bind_read _ _ _ _ Hlookup).
  assert (Hdisplay : forallb (fun label => has_column label v) display_columns = true).
  { unfold article_columns in Hcols. cbn [forallb] in Hcols.
    unfold display_columns. cbn [forallb].
    repeat (apply andb_prop in Hcols; destruct Hcols as [? Hcols]).
    rewrite !(fun label H => apply_filters_has_column label c table v H Hv)
      by assumption.
    reflexivity. }
  rewrite (results_view_shown v Hdisplay).
  split; [exact Hagree |]. cbn [fst snd call].
  exists v. split; [exact Hv |]. split; [reflexivity |].
  destruct (0 <? length (rows v))%nat eqn:Hpos.
  - apply Nat.ltb_lt in Hpos. split; [exact Hpos |]. split; [reflexivity |].
    split; [apply length_map | reflexivity].
  - apply Nat.ltb_ge in Hpos. lia.
Qed.

Lemma search_tab_returns (clock : Clock) (inputs : Inputs) (app : App) :
  session_ok app ->
  (forall table, stored_table app = Some table -> datetime_column (rows table) = true) ->
  (truthy (search_input inputs) = true ->
   exists found, str_contains (search_input inputs) = Ok found) ->
  exists view h,
    search_tab str_contains clock inputs (session app) (objects app) = (Ok view, h) /\
    agree (objects app) h /\
    session_ok {| session := session app; objects := h; page := page app |} /\
    match view with
    | please_collect => frames (session app) !! "articles_df" = None
    | results count shown =>
        exists l table c df',
          frames (session app) !! "articles_df" = Some l /\
          objects app !! l = Some table /\
          criteria_of clock inputs table = Ok c /\
          apply_filters str_contains c table = Ok df' /\
          count = length (rows df') /\
          match shown with
          | None => count = 0
          | Some (display, csv) =>
              0 < count /\
              header display = display_columns /\
              length (records display) = count /\
              csv = to_csv df'
          end
    end.
Proof.
  intros Hok Hdates Hterm.
  destruct (search_tab_outcome clock inputs app Hok) as [Hagree [Hsound Hview]].
  destruct (search_tab str_contains clock inputs (session app) (objects app))
    as [[view | e] h] eqn:Hrun; cbn [fst snd] in *.
  - exists view, h. split; [reflexivity |]. split; [exact Hagree |].
    split; [exact Hsound |]. destruct view; exact Hview.
  - exfalso. destruct Hview as [l [table [Hl [Htable [[_ Hcolumn] | [Htruthy Hraise]]]]]].
    + assert (Hstored : stored_table app = Some table)
        by (unfold stored_table; now rewrite Hl).
      rewrite (Hdates table Hstored) in Hcolumn. discriminate.
    + destruct (Hterm Htruthy) as [found Hfound]. congruence.
Qed.


End SearchTabSound.

Lemma two_records_collected : collected two_records.
Proof.
  split; [reflexivity |]. split; [discriminate |]. split.
  - apply NoDup_ListNoDup. repeat constructor; simpl; intuition discriminate.
  - repeat constructor.
Qed.

Lemma collected_app_ok : session_ok collected_app.
Proof.
  intros l Hl. simpl in Hl. rewrite lookup_singleton_eq in Hl. injection Hl as <-.
  split.
  - exists two_records. split; [reflexivity | apply two_records_collected].
  - simpl. rewrite lookup_singleton_eq. eauto.
Qed.

Lemma collected_app_dates (table : DataFrame) :
  stored_table collected_app = Some table -> datetime_column (rows table) = true.
Proof. intros [= <-]. reflexivity. Qed.


(** The opening view of the example session shows one of its two
    records: the dated one is half a second past 23:59:59 of the last day
    of the range. *)
Example opening_view_lacks_latest :
  exists shown,
    (search_tab simple_engine noon_of_day_10 untouched
       (session collected_app) (objects collected_app)).1
    = Ok (results 1 shown).
Proof. eexists. vm_compute. reflexivity. Qed.

(** ** The options of the source picker *)

Lemma insert_sorted_In (x y : string) (xs : list string) :
  In y (insert_sorted x xs) <-> y = x \/ In y xs.
Proof.
  induction xs as [| z xs IH]; simpl.
  - intuition.
  - destruct (String.leb x z); simpl; [intuition |]. rewrite IH. intuition.
Qed.

Lemma sorted_In (y : string) (xs : list string) : In y (sorted xs) <-> In y xs.
Proof.
  unfold sorted. induction xs as [| x xs IH]; simpl; [tauto |].
  rewrite insert_sorted_In, IH. intuition.
Qed.

Lemma insert_sorted_NoDup (x : string) (xs : list string) :
  ~ In x xs -> NoDup xs -> NoDup (insert_sorted x xs).
Proof.
  intros Hx Hxs. induction Hxs as [| z xs Hz Hxs IH]; simpl.
  - repeat constructor. intros H. apply list_elem_of_In in H. contradiction.
  - destruct (String.leb x z).
    + constructor; [| now constructor]. intros H. apply list_elem_of_In in H. contradiction.
    + constructor.
      * intros H. apply list_elem_of_In, insert_sorted_In in H.
        destruct H as [-> | H]; [apply Hx; now left |].
        apply Hz. now apply list_elem_of_In.
      * apply IH. intros H. apply Hx. now right.
Qed.

Lemma sorted_NoDup (xs : list string) : NoDup xs -> NoDup (sorted xs).
Proof.
  unfold sorted. induction 1 as [| x xs Hx Hxs IH]; simpl; [constructor |].
  apply insert_sorted_NoDup; [| exact IH].
  intros H. apply (proj1 (sorted_In x xs)) in H. apply Hx.
  now apply list_elem_of_In.
Qed.

Lemma insert_sorted_Sorted (x : string) (xs : list string) :
  Sorted (fun a b => String.leb a b = true) xs ->
  Sorted (fun a b => String.leb a b = true) (insert_sorted x xs).
Proof.
  induction 1 as [| z xs Hxs IH Hz]; simpl.
  - repeat constructor.
  - destruct (String.leb x z) eqn:Hle.
    + constructor; [now constructor |]. now constructor.
    + constructor; [exact IH |].
      assert (Hzx : String.leb z x = true).
      { destruct (String.leb_total x z) as [H | H]; [congruence | exact H]. }
      destruct xs as [| w xs]; simpl.
      * now constructor.
      * destruct (String.leb x w); constructor; [exact Hzx |].
        now inversion Hz.
Qed.

Lemma sorted_Sorted (xs : list string) :
  Sorted (fun a b => String.leb a b = true) (sorted xs).
Proof.
  unfold sorted. induction xs as [| x xs IH]; simpl; [constructor |].
  now apply insert_sorted_Sorted.
Qed.

(** X20: the source picker offers exactly the sources that occur in the
    table, each once, in ascending order. *)
Theorem source_options_offered (df : DataFrame) :
  has_column "Source" df = true ->
  exists options,
    source_options df = Ok options /\
    NoDup options /\
    (forall x, In x options <-> exists r, In r (rows df) /\ Source r = x) /\
    Sorted (fun a b => String.leb a b = true) options.
Proof.
  intros Hcol. unfold source_options, column_Source. rewrite Hcol.
  eexists. split; [reflexivity |]. split; [| split].
  - apply sorted_NoDup, unique_from_NoDup.
  - intros x. rewrite sorted_In. unfold unique. rewrite unique_from_In.
    rewrite in_map_iff. split.
    + intros [[r [Hr Hin]] _]. eauto.
    + intros [r [Hin Hr]]. split; [eauto | intros []].
  - apply sorted_Sorted.
Qed.

Lemma source_options_offered_witness :
  exists options,
    source_options two_records = Ok options /\
    NoDup options /\
    (forall x, In x options <-> exists r, In r (rows two_records) /\ Source r = x) /\
    Sorted (fun a b => String.leb a b = true) options.
Proof.
  exact (source_options_offered two_records eq_refl).
Defined.

(** ** The bounds of the date pickers *)

(** X18: the bounds the two date pickers get are in order, and the day of
    every parsed date of the table lies between them, so each picker opens
    on a day inside its own bounds. *)
Theorem date_bounds_enclose (clock : Clock) (df : DataFrame) (bounds : date * date) :
  (now_min clock <= now_max clock)%Z ->
  date_bounds clock df = Ok bounds ->
  (bounds.1 <= bounds.2)%Z /\
  (forall r d,
      In r (rows df) -> Published_Date r = Some d ->
      (bounds.1 <= date_of (wall d) <= bounds.2)%Z).
Proof.
  intros Hclock. unfold date_bounds, data_bounds.
  destruct (has_column "Published_Date" df); [| discriminate].
  destruct (present_dates (rows df)) as [| d0 ds] eqn:Hdates.
  - intros [= <-]. cbn [fst snd]. split.
    + pose proof (date_of_monotone _ _ Hclock). lia.
    + intros r d Hr Hd.
      assert (In d (present_dates (rows df))) by (apply present_dates_In; eauto).
      rewrite Hdates in *. contradiction.
  - destruct (datetime_column (rows df)); [| discriminate]. intros [= <-]. cbn [fst snd].
    assert (Hin : forall d, In d (d0 :: ds) -> In (wall d) (wall d0 :: map wall ds)).
    { intros d Hd. change (wall d0 :: map wall ds) with (map wall (d0 :: ds)).
      now apply in_map. }
    split.
    + pose proof (minimum_le _ _ _ (Hin d0 ltac:(now left))).
      pose proof (maximum_ge _ _ _ (Hin d0 ltac:(now left))).
      apply date_of_monotone. lia.
    + intros r d Hr Hd.
      assert (Hpresent : In d (d0 :: ds)).
      { rewrite <- Hdates. apply present_dates_In. eauto. }
      split; apply date_of_monotone;
        [apply minimum_le | apply maximum_ge]; now apply Hin.
Qed.

Lemma date_bounds_enclose_witness :
  (0 <= 0)%Z /\
  (forall r d,
      In r (rows two_records) -> Published_Date r = Some d ->
      (0 <= date_of (wall d) <= 0)%Z).
Proof.
  exact (date_bounds_enclose noon_of_day_10 two_records (0%Z, 0%Z)
           ltac:(reflexivity) eq_refl).
Defined.

(** ** A collection followed by a search *)

Section CollectThenSearch.

Variable feedparser_parse : string -> Result Feed.
Variable date_parser_parse : string -> Result datetime.
Variable str_contains : string -> Result (string -> bool).


End CollectThenSearch.

